(** * Stocktake: single-part valuation and report generation

    A shallow embedding of [InvenTree/part/stocktake.py]
    ([perform_stocktake] and [generate_stocktake_report]) and the proofs of
    the properties stated about them.

    Conventions of the embedding:
    - [Decimal] amounts and quantities are exact rationals ([Q]); equality
      of amounts is [Qeq] ([==]);
    - a [**kwargs] dictionary is a [gmap string Value];
    - an exception is a value of [Exn]; local variables that a [try] body
      has already updated keep their new value when the body raises;
    - every call to a collaborator that writes or notifies is recorded, in
      order, in a trace of [Effect]s. *)

From Stdlib Require Import QArith Lqa Ascii String List Bool Arith Lia.
From stdpp Require Import gmap strings.
Import ListNotations.

Local Open Scope string_scope.
Local Open Scope list_scope.
Local Open Scope Q_scope.

(** ** Money (py-moneyed / djmoney) *)

Record Money := mkMoney { amount : Q; currency : string }.

(** [Money.__bool__]: a [Money] is true when its amount is not zero. *)
Definition money_bool (m : Money) : bool := negb (Qeq_bool (amount m) 0).

(** Truth value of a nullable money field ([None] is false). *)
Definition truthy (o : option Money) : bool :=
  match o with
  | Some m => money_bool m
  | None => false
  end.

(** Python's [a or b] on nullable money fields. *)
Definition py_or (a b : option Money) : option Money :=
  if truthy a then a else b.

(** ** Exceptions *)

Inductive Exn := MissingRate | AttributeError | TypeError | ValueError.

Inductive exc (A : Type) :=
| Ok (a : A)
| Raise (e : Exn).
Arguments Ok {A} a.
Arguments Raise {A} e.

(** [Money.__add__]: only amounts of one currency can be added. *)
Definition money_add (a b : Money) : exc Money :=
  if String.eqb (currency a) (currency b)
  then Ok (mkMoney (amount a + amount b) (currency a))
  else Raise TypeError.

(** [Money.__mul__] with a [Decimal]. *)
Definition money_mul (a : Money) (q : Q) : Money :=
  mkMoney (amount a * q) (currency a).

(** ** The relational model *)

Record User := mkUser { user_pk : nat }.

Record StockLocation := mkLocation { loc_pk : nat; external : bool }.

Record PartCategory := mkCategory { cat_pk : nat; cat_name : string }.

Record PartPricing := mkPricing {
  is_valid : bool;
  overall_min : option Money;
  overall_max : option Money }.

Record Part := mkPart {
  part_pk : nat;
  full_name : string;
  description : string;
  category : option PartCategory;
  pricing : PartPricing }.

Record StockItem := mkItem {
  item_part : nat;                      (* primary key of the owning part *)
  location : option StockLocation;
  in_stock : bool;                      (* StockItem.IN_STOCK_FILTER holds *)
  quantity : Q;
  purchase_price : option Money }.

(** Values that travel in a [**kwargs] dictionary. *)
Inductive Value :=
| VNone
| VBool (b : bool)
| VUser (u : User)
| VPart (p : Part)
| VCategory (c : PartCategory)
| VLocation (l : StockLocation).

Definition value_truthy (v : Value) : bool :=
  match v with
  | VNone => false
  | VBool b => b
  | _ => true
  end.

(** [kwargs.get(key, default)] *)
Definition kwargs_get (kwargs : gmap string Value) (key : string) (dflt : Value) : Value :=
  match kwargs !! key with
  | Some v => v
  | None => dflt
  end.

Record PartStocktake := mkStocktake {
  st_part : Part;
  item_count : nat;
  st_quantity : Q;
  cost_min : Money;
  cost_max : Money;
  note : string;
  st_user : Value }.

(** One row of the tabular dataset. *)
Record Row := mkRow {
  row_part_id : nat;
  row_part_name : string;
  row_description : string;
  row_category_id : option nat;         (* [None] is the empty string *)
  row_category_name : string;
  row_item_count : nat;
  row_quantity : Q;
  row_cost_min : Q;
  row_cost_max : Q }.

Record Dataset := mkDataset { headers : list string; rows : list Row }.

Definition dataset_append (d : Dataset) (r : Row) : Dataset :=
  mkDataset (headers d) (rows d ++ [r]).

(** [ContentFile(content, name=filename)] *)
Record ContentFile := mkContentFile { file_content : string; file_name : string }.

Record PartStocktakeReport := mkReport {
  report : ContentFile;
  part_count : nat;
  report_user : Value }.

Record date := mkDate { year : nat; month : nat; day : nat }.

Inductive LogRecord :=
| info_pricing_not_valid (target : Part)
| warning_missing_rate_purchase (pp : option Money) (base : string)
| warning_missing_rate_pricing (p_min p_max : option Money) (base : string)
| info_no_parts_selected
| info_generating (n_parts : nat)
| info_generated (total_parts : nat).

(** Calls to collaborators, in the order they are made. *)
Inductive Effect :=
| Log (r : LogRecord)
| UpdatePricing (target : Part)
| SaveStocktake (s : PartStocktake)
| CreateReport (r : PartStocktakeReport)
| TriggerNotification (r : PartStocktakeReport) (category : string) (targets : list Value)
| BulkCreate (objs : list PartStocktake) (batch_size : nat).

(** What the module reads from its collaborators: the tables, the
    django-mptt descendant queries (with [include_self=True]), the pricing
    component, the exchange backend, the settings, the clock, and the
    helpers that format the export. *)
Record Env := mkEnv {
  Part_objects : list Part;
  StockItem_objects : list StockItem;
  part_descendants : Part -> list Part;
  category_descendants : PartCategory -> list PartCategory;
  location_descendants : StockLocation -> list StockLocation;
  recalculated_pricing : Part -> PartPricing;
  exchange_rate : string -> string -> option Q;
  currency_code_default : string;
  STOCKTAKE_EXCLUDE_EXTERNAL : bool;
  today : date;
  gettext : string -> string;
  export_csv : Dataset -> string;
  normalize : Q -> Q }.

(** ** Currency conversion (djmoney.contrib.exchange) *)

Definition get_rate (env : Env) (source target : string) : exc Q :=
  if String.eqb source target then Ok 1
  else match exchange_rate env source target with
       | Some r => Ok r
       | None => Raise MissingRate
       end.

(** [convert_money(value, currency)]; [value] may be [None] in Python, in
    which case reading [value.amount] raises. *)
Definition convert_money (env : Env) (value : option Money) (cur : string) : exc Money :=
  match value with
  | None => Raise AttributeError
  | Some v =>
      match get_rate env (currency v) cur with
      | Ok r => Ok (mkMoney (amount v * r) cur)
      | Raise e => Raise e
      end
  end.

(** ** Statements over the local variables of [perform_stocktake] *)

Record Locals := mkLocals {
  total_quantity : Q;
  total_cost_min : Money;
  total_cost_max : Money;
  has_pricing : bool;
  trace : list Effect }.

Definition Stmt (A : Type) : Type := Locals -> Locals * exc A.

Definition ret {A} (a : A) : Stmt A := fun s => (s, Ok a).

Definition bind {A B} (c : Stmt A) (k : A -> Stmt B) : Stmt B :=
  fun s =>
    match c s with
    | (s', Ok a) => k a s'
    | (s', Raise e) => (s', Raise e)
    end.

Notation "x <-- c ;; k" := (bind c (fun x => k))
  (at level 100, c at next level, right associativity).
Notation "c ;;; k" := (bind c (fun _ => k))
  (at level 100, right associativity).

(** Evaluate an expression that may raise. *)
Definition eval {A} (e : exc A) : Stmt A := fun s => (s, e).

(** [try: body / except MissingRate: handler]. The handler runs in the
    state the body left behind. *)
Definition try_except_MissingRate (body handler : Stmt unit) : Stmt unit :=
  fun s =>
    match body s with
    | (s', Raise MissingRate) => handler s'
    | r => r
    end.

Definition add_total_quantity (q : Q) : Stmt unit := fun s =>
  (mkLocals (total_quantity s + q) (total_cost_min s) (total_cost_max s)
            (has_pricing s) (trace s), Ok tt).

Definition add_total_cost_min (m : Money) : Stmt unit := fun s =>
  match money_add (total_cost_min s) m with
  | Ok r => (mkLocals (total_quantity s) r (total_cost_max s)
                      (has_pricing s) (trace s), Ok tt)
  | Raise e => (s, Raise e)
  end.

Definition add_total_cost_max (m : Money) : Stmt unit := fun s =>
  match money_add (total_cost_max s) m with
  | Ok r => (mkLocals (total_quantity s) (total_cost_min s) r
                      (has_pricing s) (trace s), Ok tt)
  | Raise e => (s, Raise e)
  end.

Definition set_has_pricing (b : bool) : Stmt unit := fun s =>
  (mkLocals (total_quantity s) (total_cost_min s) (total_cost_max s)
            b (trace s), Ok tt).

Definition get_has_pricing : Stmt bool := fun s => (s, Ok (has_pricing s)).

Definition emit (e : Effect) : Stmt unit := fun s =>
  (mkLocals (total_quantity s) (total_cost_min s) (total_cost_max s)
            (has_pricing s) (trace s ++ [e]), Ok tt).

(** [for x in l: body x] *)
Fixpoint for_each {A} (body : A -> Stmt unit) (l : list A) : Stmt unit :=
  match l with
  | [] => ret tt
  | x :: l' => body x ;;; for_each body l'
  end.

(** ** [perform_stocktake] *)

(** Modelled from the spec: [Part.stock_entries] (part/models.py) is not
    part of the sources at hand. The part catalog gives "stock-entry
    association (filterable by in-stock status, variant-inclusion flag)":
    with variants, the entries of the part and of all its descendants;
    without, only the entries whose part is the given one. *)
Definition stock_entries (env : Env) (target : Part)
    (in_stock_flag : option bool) (include_variants : bool) : list StockItem :=
  let query :=
    if include_variants
    then List.filter
           (fun it => existsb (fun v => Nat.eqb (item_part it) (part_pk v))
                              (part_descendants env target))
           (StockItem_objects env)
    else List.filter (fun it => Nat.eqb (item_part it) (part_pk target))
                     (StockItem_objects env) in
  match in_stock_flag with
  | Some true => List.filter in_stock query
  | Some false => List.filter (fun it => negb (in_stock it)) query
  | None => query
  end.

Definition location_external (it : StockItem) : bool :=
  match location it with
  | Some l => external l
  | None => false
  end.

(** [queryset.exclude(location__external=True)]: an item without a
    location is kept. *)
Definition exclude_location_external (q : list StockItem) : list StockItem :=
  List.filter (fun it => negb (location_external it)) q.

(** [if entry.purchase_price: try: ... except MissingRate: ...] *)
Definition purchase_price_block (env : Env) (base_currency : string)
    (entry : StockItem) : Stmt unit :=
  if truthy (purchase_price entry) then
    try_except_MissingRate
      (c <-- eval (convert_money env (purchase_price entry) base_currency) ;;
       let pp := money_mul c (quantity entry) in
       add_total_cost_min pp ;;;
       add_total_cost_max pp ;;;
       set_has_pricing true)
      (emit (Log (warning_missing_rate_purchase (purchase_price entry) base_currency)))
  else ret tt.

(** [if not has_pricing: ...], the fallback on the part pricing data. *)
Definition fallback_block (env : Env) (pricing : PartPricing)
    (base_currency : string) (entry : StockItem) : Stmt unit :=
  hp <-- get_has_pricing ;;
  if negb hp then
    let p_min := py_or (overall_min pricing) (overall_max pricing) in
    let p_max := py_or (overall_max pricing) (overall_min pricing) in
    if truthy p_min || truthy p_max then
      try_except_MissingRate
        (a <-- eval (convert_money env p_min base_currency) ;;
         add_total_cost_min (money_mul a (quantity entry)) ;;;
         b <-- eval (convert_money env p_max base_currency) ;;
         add_total_cost_max (money_mul b (quantity entry)))
        (emit (Log (warning_missing_rate_pricing p_min p_max base_currency)))
    else ret tt
  else ret tt.

(** The body of [for entry in stock_entries]. *)
Definition entry_body (env : Env) (pricing : PartPricing) (base_currency : string)
    (entry : StockItem) : Stmt unit :=
  add_total_quantity (quantity entry) ;;;
  set_has_pricing false ;;;
  purchase_price_block env base_currency entry ;;;
  fallback_block env pricing base_currency entry.

(** The entries [perform_stocktake] iterates over. *)
Definition selected_entries (env : Env) (target : Part) (kwargs : gmap string Value)
    : list StockItem :=
  let entries := stock_entries env target (Some true) false in
  let exclude_external := kwargs_get kwargs "exclude_external" (VBool false) in
  if value_truthy exclude_external
  then exclude_location_external entries
  else entries.

(** The pricing record used, and the effects of bringing it up to date. *)
Definition cached_pricing (env : Env) (target : Part) : PartPricing * list Effect :=
  if negb (is_valid (pricing target))
  then (recalculated_pricing env target,
        [Log (info_pricing_not_valid target); UpdatePricing target])
  else (pricing target, []).

Definition perform_stocktake (env : Env) (target : Part) (user : Value)
    (note : string) (commit : bool) (kwargs : gmap string Value)
    : exc PartStocktake * list Effect :=
  let entries := selected_entries env target kwargs in
  let '(pricing, tr) := cached_pricing env target in
  let base_currency := currency_code_default env in
  let s0 := mkLocals 0 (mkMoney 0 base_currency) (mkMoney 0 base_currency) false tr in
  match for_each (entry_body env pricing base_currency) entries s0 with
  | (s, Raise e) => (Raise e, trace s)
  | (s, Ok _) =>
      let instance :=
        mkStocktake target (length entries) (total_quantity s)
                    (total_cost_min s) (total_cost_max s) note user in
      (Ok instance, if commit then trace s ++ [SaveStocktake instance] else trace s)
  end.

(** ** [generate_stocktake_report] *)

Definition digit (n : nat) : ascii := ascii_of_nat (48 + n mod 10).

Definition digits2 (n : nat) : string :=
  String (digit (n / 10)) (String (digit n) EmptyString).

Definition digits4 (n : nat) : string :=
  String (digit (n / 1000)) (String (digit (n / 100)) (digits2 n)).

(** [date.isoformat()], that is ["%04d-%02d-%02d"]; a [date] has its year
    in 1..9999, its month in 1..12 and its day in 1..31. *)
Definition isoformat (d : date) : string :=
  digits4 (year d) +:+ "-" +:+ digits2 (month d) +:+ "-" +:+ digits2 (day d).

Definition mem_nat (n : nat) (l : list nat) : bool := existsb (Nat.eqb n) l.

(** [if p := kwargs.get('part', None)]: restrict to the primary keys of
    [p.get_descendants(include_self=True)]. Any tree node answers
    [get_descendants]; other values do not. *)
Definition filter_by_part (env : Env) (kwargs : gmap string Value)
    (parts : list Part) : exc (list Part) :=
  let p := kwargs_get kwargs "part" VNone in
  if value_truthy p then
    let variants :=
      match p with
      | VPart x => Ok (map part_pk (part_descendants env x))
      | VCategory c => Ok (map cat_pk (category_descendants env c))
      | VLocation l => Ok (map loc_pk (location_descendants env l))
      | _ => Raise AttributeError
      end in
    match variants with
    | Ok pks => Ok (List.filter (fun x => mem_nat (part_pk x) pks) parts)
    | Raise e => Raise e
    end
  else Ok parts.

(** [if category := kwargs.get('category', None)]: parts whose category is
    among the descendants. *)
Definition filter_by_category (env : Env) (kwargs : gmap string Value)
    (parts : list Part) : exc (list Part) :=
  let category_v := kwargs_get kwargs "category" VNone in
  if value_truthy category_v then
    match category_v with
    | VCategory c =>
        let categories := category_descendants env c in
        Ok (List.filter
              (fun x => match category x with
                        | Some pc => mem_nat (cat_pk pc) (map cat_pk categories)
                        | None => false
                        end) parts)
    | VPart _ | VLocation _ => Raise ValueError
    | _ => Raise AttributeError
    end
  else Ok parts.

(** The stock items found within the given locations. *)
Definition items_within (env : Env) (locations : list StockLocation)
    (exclude_external : Value) : list StockItem :=
  let items :=
    List.filter
      (fun it => match location it with
                 | Some l => mem_nat (loc_pk l) (map loc_pk locations)
                 | None => false
                 end) (StockItem_objects env) in
  if value_truthy exclude_external
  then exclude_location_external items
  else items.

(** [if location := kwargs.get('location', None)]: parts which have stock
    items within the location or one of its sublocations. *)
Definition filter_by_location (env : Env) (kwargs : gmap string Value)
    (exclude_external : Value) (parts : list Part) : exc (list Part) :=
  let location_v := kwargs_get kwargs "location" VNone in
  if value_truthy location_v then
    match location_v with
    | VLocation l =>
        let locations := location_descendants env l in
        let items := items_within env locations exclude_external in
        let unique_parts := nodup Nat.eq_dec (map item_part items) in
        Ok (List.filter (fun x => mem_nat (part_pk x) unique_parts) parts)
    | VPart _ | VCategory _ => Raise ValueError
    | _ => Raise AttributeError
    end
  else Ok parts.

(** The value bound to [exclude_external] at the top of the function. *)
Definition report_exclude_external (env : Env) (kwargs : gmap string Value) : Value :=
  kwargs_get kwargs "exclude_exernal" (VBool (STOCKTAKE_EXCLUDE_EXTERNAL env)).

(** The queryset [parts] after the three filters. *)
Definition filtered_parts (env : Env) (kwargs : gmap string Value) : exc (list Part) :=
  let exclude_external := report_exclude_external env kwargs in
  match filter_by_part env kwargs (Part_objects env) with
  | Raise e => Raise e
  | Ok parts =>
      match filter_by_category env kwargs parts with
      | Raise e => Raise e
      | Ok parts => filter_by_location env kwargs exclude_external parts
      end
  end.

Definition report_headers (env : Env) (base_currency : string) : list string :=
  [ gettext env "Part ID";
    gettext env "Part Name";
    gettext env "Part Description";
    gettext env "Category ID";
    gettext env "Category Name";
    gettext env "Stock Items";
    gettext env "Total Quantity";
    gettext env "Total Cost Min" +:+ " (" +:+ base_currency +:+ ")";
    gettext env "Total Cost Max" +:+ " (" +:+ base_currency +:+ ")" ].

Definition stocktake_row (env : Env) (p : Part) (stocktake : PartStocktake) : Row :=
  mkRow (part_pk p) (full_name p) (description p)
        (match category p with Some c => Some (cat_pk c) | None => None end)
        (match category p with Some c => cat_name c | None => "" end)
        (item_count stocktake) (st_quantity stocktake)
        (normalize env (amount (cost_min stocktake)))
        (normalize env (amount (cost_max stocktake))).

(** The variables updated by [for p in parts]. *)
Record LoopVars := mkLoopVars {
  stocktake_instances : list PartStocktake;
  total_parts : nat;
  dataset : Dataset;
  effects : list Effect }.

Fixpoint stocktake_loop (env : Env) (user exclude_external : Value)
    (parts : list Part) (v : LoopVars) : LoopVars * exc unit :=
  match parts with
  | [] => (v, Ok tt)
  | p :: rest =>
      let '(r, tr) :=
        perform_stocktake env p user "" false
                          {[ "exclude_external" := exclude_external ]} in
      let v := mkLoopVars (stocktake_instances v) (total_parts v) (dataset v)
                          (effects v ++ tr) in
      match r with
      | Raise e => (v, Raise e)
      | Ok stocktake =>
          if Qeq_bool (st_quantity stocktake) 0 then
            stocktake_loop env user exclude_external rest v
          else
            stocktake_loop env user exclude_external rest
              (mkLoopVars (stocktake_instances v ++ [stocktake])
                          (total_parts v + 1)
                          (dataset_append (dataset v) (stocktake_row env p stocktake))
                          (effects v))
      end
  end.

(** What happens after the loop: the report file, the report record and
    its notification, the bulk insert. *)
Definition finish_report (env : Env) (user generate_report update_parts : Value)
    (v : LoopVars) : list Effect :=
  let buffer := export_csv env (dataset v) in
  let today_s := isoformat (today env) in
  let filename := "InvenTree_Stocktake_" +:+ today_s +:+ ".csv" in
  let report_file := mkContentFile buffer filename in
  let report_instance := mkReport report_file (total_parts v) user in
  (if value_truthy generate_report then
     CreateReport report_instance ::
       (if value_truthy user
        then [TriggerNotification report_instance "generate_stocktake_report" [user]]
        else [])
   else []) ++
  (if value_truthy update_parts
   then [BulkCreate (stocktake_instances v) 500]
   else []) ++
  [Log (info_generated (total_parts v))].

(** The function returns [None] on every path; the result pairs the
    returned value (or the exception that escapes) with the effects. *)
Definition generate_stocktake_report (env : Env) (kwargs : gmap string Value)
    : exc Value * list Effect :=
  let user := kwargs_get kwargs "user" VNone in
  let generate_report := kwargs_get kwargs "generate_report" (VBool true) in
  let update_parts := kwargs_get kwargs "update_parts" (VBool true) in
  let exclude_external := report_exclude_external env kwargs in
  match filtered_parts env kwargs with
  | Raise e => (Raise e, [])
  | Ok parts =>
      let n_parts := length parts in
      if Nat.eqb n_parts 0 then (Ok VNone, [Log info_no_parts_selected])
      else
        let base_currency := currency_code_default env in
        let v0 := mkLoopVars [] 0 (mkDataset (report_headers env base_currency) [])
                             [Log (info_generating n_parts)] in
        match stocktake_loop env user exclude_external parts v0 with
        | (v, Raise e) => (Raise e, effects v)
        | (v, Ok _) =>
            (Ok VNone, effects v ++ finish_report env user generate_report update_parts v)
        end
  end.

(** ** A small site to run the functions on *)

Module Demo.

Definition usd (a : Q) : Money := mkMoney a "USD".
Definition eur (a : Q) : Money := mkMoney a "EUR".

Definition shelf : StockLocation := mkLocation 1 false.
Definition supplier_site : StockLocation := mkLocation 2 true.

Definition widget : Part :=
  mkPart 1 "Widget" "A widget" (Some (mkCategory 1 "Hardware"))
         (mkPricing true None None).

(** The scenario of the testable properties: quantities 5 and 3, purchase
    prices 10 and 12 in the base currency. *)
Definition env0 : Env :=
  mkEnv [widget]
        [ mkItem 1 (Some shelf) true 5 (Some (usd 10));
          mkItem 1 (Some shelf) true 3 (Some (usd 12)) ]
        (fun p => [p]) (fun c => [c]) (fun l => [l])
        pricing
        (fun _ _ => None) "USD" false (mkDate 2023 4 9)
        (fun s => s) (fun _ => "") (fun q => q).

(** A part priced only through its aggregate record, whose lower bound is
    in the base currency and whose upper bound is in a currency without
    exchange rate; one unpriced entry of quantity 2. *)
Definition gadget : Part :=
  mkPart 2 "Gadget" "A gadget" None
         (mkPricing true (Some (usd 5)) (Some (eur 10))).

Definition unpriced_entry : StockItem := mkItem 2 (Some shelf) true 2 None.

Definition env_mixed : Env :=
  mkEnv [gadget] [unpriced_entry]
        (fun p => [p]) (fun c => [c]) (fun l => [l])
        pricing
        (fun _ _ => None) "USD" false (mkDate 2023 4 9)
        (fun s => s) (fun _ => "") (fun q => q).

Definition locals0 : Locals := mkLocals 0 (usd 0) (usd 0) false [].

(** The widget with a single entry of quantity 5 kept at a supplier's
    site; the site-wide setting does not exclude external locations. *)
Definition env_external : Env :=
  mkEnv [widget]
        [ mkItem 1 (Some supplier_site) true 5 (Some (usd 10)) ]
        (fun p => [p]) (fun c => [c]) (fun l => [l])
        pricing
        (fun _ _ => None) "USD" false (mkDate 2023 4 9)
        (fun s => s) (fun _ => "") (fun q => q).

(** The widget with a single entry on the shelf that is not in stock. *)
Definition env_not_in_stock : Env :=
  mkEnv [widget]
        [ mkItem 1 (Some shelf) false 5 (Some (usd 10)) ]
        (fun p => [p]) (fun c => [c]) (fun l => [l])
        pricing
        (fun _ _ => None) "USD" false (mkDate 2023 4 9)
        (fun s => s) (fun _ => "") (fun q => q).

(** The widget with its two entries and the gadget without any stock. *)
Definition env_two : Env :=
  mkEnv [widget; gadget]
        [ mkItem 1 (Some shelf) true 5 (Some (usd 10));
          mkItem 1 (Some shelf) true 3 (Some (usd 12)) ]
        (fun p => [p]) (fun c => [c]) (fun l => [l])
        pricing
        (fun _ _ => None) "USD" false (mkDate 2023 4 9)
        (fun s => s) (fun _ => "") (fun q => q).

(** Options asking for the snapshots to be stored and no report. *)
Definition kwargs_update_only : gmap string Value :=
  {[ "generate_report" := VBool false; "update_parts" := VBool true ]}.

(** A site without parts. *)
Definition env_empty : Env :=
  mkEnv [] []
        (fun p => [p]) (fun c => [c]) (fun l => [l])
        pricing
        (fun _ _ => None) "USD" false (mkDate 2023 4 9)
        (fun s => s) (fun _ => "") (fun q => q).

(** A requester, and the options of a run made on their behalf. *)
Definition alice : User := mkUser 7.

Definition kwargs_alice : gmap string Value := {[ "user" := VUser alice ]}.

(** The widget with one entry on the shelf and one at a supplier's site. *)
Definition env_both : Env :=
  mkEnv [widget]
        [ mkItem 1 (Some shelf) true 5 (Some (usd 10));
          mkItem 1 (Some supplier_site) true 3 (Some (usd 12)) ]
        (fun p => [p]) (fun c => [c]) (fun l => [l])
        pricing
        (fun _ _ => None) "USD" false (mkDate 2023 4 9)
        (fun s => s) (fun _ => "") (fun q => q).

(** The widget with an entry bought in a currency without exchange rate. *)
Definition foreign_entry : StockItem := mkItem 1 (Some shelf) true 4 (Some (eur 3)).

End Demo.

(** ** Summaries used to state the properties *)

(** What the fallback on the part pricing adds to ([total_cost_min],
    [total_cost_max]) for an entry of quantity [q]. *)
Definition fallback_contribution (env : Env) (pricing : PartPricing)
    (base_currency : string) (q : Q) : Q * Q :=
  let p_min := py_or (overall_min pricing) (overall_max pricing) in
  let p_max := py_or (overall_max pricing) (overall_min pricing) in
  if truthy p_min || truthy p_max then
    match convert_money env p_min base_currency with
    | Ok a =>
        match convert_money env p_max base_currency with
        | Ok b => (amount a * q, amount b * q)
        | Raise _ => (amount a * q, 0)
        end
    | Raise _ => (0, 0)
    end
  else (0, 0).

(** The entry is valued at its own purchase price. *)
Definition uses_purchase_price (env : Env) (base_currency : string)
    (entry : StockItem) : bool :=
  truthy (purchase_price entry) &&
  match convert_money env (purchase_price entry) base_currency with
  | Ok _ => true
  | Raise _ => false
  end.

(** What one entry adds to ([total_cost_min], [total_cost_max]). *)
Definition entry_contribution (env : Env) (pricing : PartPricing)
    (base_currency : string) (entry : StockItem) : Q * Q :=
  if truthy (purchase_price entry) then
    match convert_money env (purchase_price entry) base_currency with
    | Ok c => (amount c * quantity entry, amount c * quantity entry)
    | Raise _ => fallback_contribution env pricing base_currency (quantity entry)
    end
  else fallback_contribution env pricing base_currency (quantity entry).

Fixpoint sum_Q (l : list Q) : Q :=
  match l with
  | [] => 0
  | x :: l' => x + sum_Q l'
  end.

(** The inclusion rule for the stock entries of a stocktake: the entry
    belongs to the part itself (an entry of a variant carries the
    variant's key), is in stock, and is not at an external location when
    those are excluded. *)
Definition included (target : Part) (exclude_external : bool) (it : StockItem) : bool :=
  Nat.eqb (item_part it) (part_pk target) && in_stock it &&
  (negb exclude_external || negb (location_external it)).

Definition included_entries (env : Env) (target : Part) (exclude_external : bool)
    : list StockItem :=
  List.filter (included target exclude_external) (StockItem_objects env).

(** The fallback bounds of a pricing record are consistent when, as soon
    as the lower one converts, the upper one converts too and is not
    below it. *)
Definition bounds_consistent (env : Env) (pricing : PartPricing) : Prop :=
  forall a,
    convert_money env (py_or (overall_min pricing) (overall_max pricing))
                  (currency_code_default env) = Ok a ->
    exists b,
      convert_money env (py_or (overall_max pricing) (overall_min pricing))
                    (currency_code_default env) = Ok b /\
      amount a <= amount b.

Definition is_log (e : Effect) : bool :=
  match e with
  | Log _ => true
  | _ => false
  end.

(** Effects that neither store a snapshot or a report nor notify. *)
Definition is_bookkeeping (e : Effect) : bool :=
  match e with
  | Log _ | UpdatePricing _ => true
  | _ => false
  end.

(** The snapshot the report loop computes for one part. *)
Definition part_snapshot (env : Env) (user exclude_external : Value) (p : Part)
    : exc PartStocktake :=
  fst (perform_stocktake env p user "" false
                         {[ "exclude_external" := exclude_external ]}).

(** The parts of a list paired with their snapshot. *)
Definition part_snapshots (env : Env) (user exclude_external : Value)
    (parts : list Part) : list (Part * PartStocktake) :=
  flat_map (fun p => match part_snapshot env user exclude_external p with
                     | Ok s => [(p, s)]
                     | Raise _ => []
                     end) parts.

Definition nonzero_quantity (ps : Part * PartStocktake) : bool :=
  negb (Qeq_bool (st_quantity (snd ps)) 0).

(** The snapshots whose quantity is not zero, in the order of the parts. *)
Definition counted_snapshots (env : Env) (user exclude_external : Value)
    (parts : list Part) : list (Part * PartStocktake) :=
  List.filter nonzero_quantity (part_snapshots env user exclude_external parts).

Definition is_digit (c : ascii) : bool :=
  Nat.leb 48 (nat_of_ascii c) && Nat.leb (nat_of_ascii c) 57.

(** The shape YYYY-MM-DD. *)
Definition is_iso_date (s : string) : bool :=
  match s with
  | String y1 (String y2 (String y3 (String y4 (String h1
      (String m1 (String m2 (String h2 (String d1 (String d2 EmptyString))))))))) =>
      is_digit y1 && is_digit y2 && is_digit y3 && is_digit y4 &&
      Ascii.eqb h1 "-" && is_digit m1 && is_digit m2 &&
      Ascii.eqb h2 "-" && is_digit d1 && is_digit d2
  | _ => false
  end.

(** Classifiers of effects, to count them in a trace. *)
Definition is_UpdatePricing (e : Effect) : bool :=
  match e with UpdatePricing _ => true | _ => false end.

Definition is_SaveStocktake (e : Effect) : bool :=
  match e with SaveStocktake _ => true | _ => false end.

Definition is_CreateReport (e : Effect) : bool :=
  match e with CreateReport _ => true | _ => false end.

Definition is_TriggerNotification (e : Effect) : bool :=
  match e with TriggerNotification _ _ _ => true | _ => false end.

Definition is_BulkCreate (e : Effect) : bool :=
  match e with BulkCreate _ _ => true | _ => false end.

(** The same site with another content of the stock item table. *)
Definition with_items (env : Env) (items : list StockItem) : Env :=
  mkEnv (Part_objects env) items
        (part_descendants env) (category_descendants env) (location_descendants env)
        (recalculated_pricing env) (exchange_rate env) (currency_code_default env)
        (STOCKTAKE_EXCLUDE_EXTERNAL env) (today env)
        (gettext env) (export_csv env) (normalize env).

(** The amount of the purchase price of an entry (zero without one). *)
Definition price_amount (entry : StockItem) : Q :=
  match purchase_price entry with
  | Some m => amount m
  | None => 0
  end.

(** Unfold the statement combinators. *)
Ltac run_stmt :=
  unfold bind, try_except_MissingRate, eval, ret, get_has_pricing,
    set_has_pricing, add_total_quantity, add_total_cost_min,
    add_total_cost_max, emit; simpl.

(** ** Properties of [perform_stocktake] *)

(** The scenario of the testable properties: two entries of quantities 5
    and 3 bought at 10 and 12 give 2 items, a quantity of 8 and a cost of
    86 on both sides. *)
Example widget_stocktake :
  match perform_stocktake Demo.env0 Demo.widget VNone "" false ∅ with
  | (Ok s, tr) =>
      item_count s = 2%nat /\ st_quantity s == 8 /\
      amount (cost_min s) == 86 /\ amount (cost_max s) == 86 /\ tr = []
  | _ => False
  end.
Proof. vm_compute. repeat split; reflexivity. Qed.

Example isoformat_example : isoformat (mkDate 2023 4 9) = "2023-04-09".
Proof. reflexivity. Qed.

Lemma money_add_same (a b : Money) :
  currency a = currency b ->
  money_add a b = Ok (mkMoney (amount a + amount b) (currency a)).
Proof.
  intros H. unfold money_add. rewrite H, String.eqb_refl. reflexivity.
Qed.

Lemma convert_money_currency env v cur c :
  convert_money env v cur = Ok c -> currency c = cur.
Proof.
  unfold convert_money. destruct v as [m|]; [|discriminate].
  destruct (get_rate env (currency m) cur); [|discriminate].
  intros [= <-]. reflexivity.
Qed.

Lemma convert_money_exn env v cur e :
  truthy v = true -> convert_money env v cur = Raise e -> e = MissingRate.
Proof.
  unfold convert_money, get_rate. destruct v as [m|]; [|discriminate].
  intros _. destruct (String.eqb (currency m) cur); [discriminate|].
  destruct (exchange_rate env (currency m) cur); [discriminate|].
  intros [= <-]. reflexivity.
Qed.

Lemma py_or_truthy a b :
  truthy (py_or a b) || truthy (py_or b a) = true ->
  truthy (py_or a b) = true /\ truthy (py_or b a) = true.
Proof.
  unfold py_or. destruct (truthy a) eqn:Ha, (truthy b) eqn:Hb;
    rewrite ?Ha, ?Hb; simpl; intros; split; congruence.
Qed.

Lemma fallback_block_skipped env pricing base e s :
  has_pricing s = true -> fallback_block env pricing base e s = (s, Ok tt).
Proof.
  intros H. unfold fallback_block. run_stmt. rewrite H. reflexivity.
Qed.

Lemma fallback_block_run env pricing base e s :
  has_pricing s = false ->
  currency (total_cost_min s) = base ->
  currency (total_cost_max s) = base ->
  exists s',
    fallback_block env pricing base e s = (s', Ok tt) /\
    total_quantity s' = total_quantity s /\
    currency (total_cost_min s') = base /\
    currency (total_cost_max s') = base /\
    amount (total_cost_min s') ==
      amount (total_cost_min s) + fst (fallback_contribution env pricing base (quantity e)) /\
    amount (total_cost_max s') ==
      amount (total_cost_max s) + snd (fallback_contribution env pricing base (quantity e)) /\
    exists logs, trace s' = trace s ++ map Log logs.
Proof.
  intros Hhp Hmin Hmax.
  unfold fallback_block, fallback_contribution. run_stmt. rewrite Hhp. simpl.
  destruct (truthy (py_or (overall_min pricing) (overall_max pricing))
            || truthy (py_or (overall_max pricing) (overall_min pricing))) eqn:Hb.
  - apply py_or_truthy in Hb as [Hb1 Hb2].
    destruct (convert_money env (py_or (overall_min pricing) (overall_max pricing)) base)
      as [a|x] eqn:Ha.
    + pose proof (convert_money_currency _ _ _ _ Ha) as Hca.
      rewrite money_add_same by (simpl; congruence). simpl.
      destruct (convert_money env (py_or (overall_max pricing) (overall_min pricing)) base)
        as [b|y] eqn:Hbm.
      * pose proof (convert_money_currency _ _ _ _ Hbm) as Hcb.
        rewrite money_add_same by (simpl; congruence). simpl.
        eexists; split; [reflexivity|]. simpl.
        repeat split; try assumption; try reflexivity; try lra.
        exists []. simpl. rewrite app_nil_r. reflexivity.
      * rewrite (convert_money_exn _ _ _ _ Hb2 Hbm). simpl.
        eexists; split; [reflexivity|]. simpl.
        repeat split; try assumption; try reflexivity; try lra.
        eexists [_]. reflexivity.
    + rewrite (convert_money_exn _ _ _ _ Hb1 Ha). simpl.
      eexists; split; [reflexivity|]. simpl.
      repeat split; try assumption; try reflexivity; try lra.
      eexists [_]. reflexivity.
  - eexists; split; [reflexivity|].
    repeat split; try assumption; try reflexivity; simpl; try lra.
    exists []. simpl. rewrite app_nil_r. reflexivity.
Qed.

Lemma entry_body_run env pricing base e s :
  currency (total_cost_min s) = base ->
  currency (total_cost_max s) = base ->
  exists s',
    entry_body env pricing base e s = (s', Ok tt) /\
    total_quantity s' = total_quantity s + quantity e /\
    currency (total_cost_min s') = base /\
    currency (total_cost_max s') = base /\
    amount (total_cost_min s') ==
      amount (total_cost_min s) + fst (entry_contribution env pricing base e) /\
    amount (total_cost_max s') ==
      amount (total_cost_max s) + snd (entry_contribution env pricing base e) /\
    exists logs, trace s' = trace s ++ map Log logs.
Proof.
  intros Hmin Hmax.
  unfold entry_body, entry_contribution, purchase_price_block.
  unfold bind at 1 2 3. unfold add_total_quantity, set_has_pricing. simpl.
  set (s1 := mkLocals (total_quantity s + quantity e) (total_cost_min s)
                      (total_cost_max s) false (trace s)).
  destruct (truthy (purchase_price e)) eqn:Hpp.
  - run_stmt.
    destruct (convert_money env (purchase_price e) base) as [c|x] eqn:Hc.
    + pose proof (convert_money_currency _ _ _ _ Hc) as Hcc.
      rewrite !money_add_same by (simpl; congruence). simpl.
      rewrite fallback_block_skipped by reflexivity.
      eexists; split; [reflexivity|]. simpl.
      repeat split; try assumption; try reflexivity.
      exists []. simpl. rewrite app_nil_r. reflexivity.
    + rewrite (convert_money_exn _ _ _ _ Hpp Hc). simpl.
      destruct (fallback_block_run env pricing base e
                  (mkLocals (total_quantity s + quantity e) (total_cost_min s)
                     (total_cost_max s) false
                     (trace s ++ [Log (warning_missing_rate_purchase (purchase_price e) base)])))
        as (s' & Hrun & Hq & H1 & H2 & H3 & H4 & logs & Hl); try assumption; try reflexivity.
      exists s'. split; [exact Hrun|]. simpl in *.
      repeat split; try assumption.
      exists (warning_missing_rate_purchase (purchase_price e) base :: logs).
      rewrite Hl, <- app_assoc. reflexivity.
  - unfold ret. simpl.
    destruct (fallback_block_run env pricing base e s1)
      as (s' & Hrun & Hq & H1 & H2 & H3 & H4 & logs & Hl); try assumption; try reflexivity.
    exists s'. split; [exact Hrun|]. simpl in *.
    repeat split; try assumption. exists logs. exact Hl.
Qed.

Lemma for_each_entry_run env pricing base entries : forall s,
  currency (total_cost_min s) = base ->
  currency (total_cost_max s) = base ->
  exists s',
    for_each (entry_body env pricing base) entries s = (s', Ok tt) /\
    total_quantity s' == total_quantity s + sum_Q (map quantity entries) /\
    currency (total_cost_min s') = base /\
    currency (total_cost_max s') = base /\
    amount (total_cost_min s') ==
      amount (total_cost_min s)
      + sum_Q (map (fun e => fst (entry_contribution env pricing base e)) entries) /\
    amount (total_cost_max s') ==
      amount (total_cost_max s)
      + sum_Q (map (fun e => snd (entry_contribution env pricing base e)) entries) /\
    exists logs, trace s' = trace s ++ map Log logs.
Proof.
  induction entries as [|e entries IH]; intros s Hmin Hmax.
  - exists s. simpl. unfold ret.
    repeat split; try assumption; try lra.
    exists []. simpl. rewrite app_nil_r. reflexivity.
  - destruct (entry_body_run env pricing base e s Hmin Hmax)
      as (s1 & Hrun & Hq & H1 & H2 & H3 & H4 & logs1 & Hl1).
    destruct (IH s1 H1 H2) as (s2 & Hrun2 & Hq2 & H5 & H6 & H7 & H8 & logs2 & Hl2).
    exists s2. simpl. unfold bind. rewrite Hrun, Hrun2.
    repeat split; try assumption.
    + rewrite Hq2, Hq. lra.
    + rewrite H7, H3. lra.
    + rewrite H8, H4. lra.
    + exists (logs1 ++ logs2). rewrite Hl2, Hl1, map_app, app_assoc. reflexivity.
Qed.

Lemma perform_stocktake_run env target user note0 commit kwargs :
  let pricing := fst (cached_pricing env target) in
  let base := currency_code_default env in
  let entries := selected_entries env target kwargs in
  exists s logs,
    perform_stocktake env target user note0 commit kwargs =
      (Ok s, snd (cached_pricing env target) ++ map Log logs
             ++ (if commit then [SaveStocktake s] else [])) /\
    st_part s = target /\
    item_count s = length entries /\
    st_quantity s == sum_Q (map quantity entries) /\
    amount (cost_min s) ==
      sum_Q (map (fun e => fst (entry_contribution env pricing base e)) entries) /\
    amount (cost_max s) ==
      sum_Q (map (fun e => snd (entry_contribution env pricing base e)) entries) /\
    currency (cost_min s) = base /\ currency (cost_max s) = base /\
    note s = note0 /\ st_user s = user.
Proof.
  intros pricing base entries. unfold perform_stocktake.
  fold entries. subst pricing.
  destruct (cached_pricing env target) as [pricing tr]. simpl. fold base.
  destruct (for_each_entry_run env pricing base entries
              (mkLocals 0 (mkMoney 0 base) (mkMoney 0 base) false tr))
    as (s' & Hrun & Hq & H1 & H2 & H3 & H4 & logs & Hl); try reflexivity.
  rewrite Hrun. simpl in *.
  eexists. exists logs. split.
  - f_equal. rewrite Hl. destruct commit.
    + rewrite <- app_assoc. reflexivity.
    + rewrite app_nil_r. reflexivity.
  - simpl. repeat split; try assumption; try reflexivity.
    + rewrite Hq. lra.
    + rewrite H3. lra.
    + rewrite H4. lra.
Qed.

Lemma filter_filter_andb {A} (f g : A -> bool) (l : list A) :
  List.filter f (List.filter g l) = List.filter (fun x => g x && f x) l.
Proof.
  induction l as [|x l IH]; simpl; [reflexivity|].
  destruct (g x); simpl; [destruct (f x)|]; rewrite IH; reflexivity.
Qed.

Lemma selected_entries_included env target kwargs :
  selected_entries env target kwargs =
  included_entries env target
    (value_truthy (kwargs_get kwargs "exclude_external" (VBool false))).
Proof.
  unfold selected_entries, included_entries, stock_entries, exclude_location_external.
  destruct (value_truthy (kwargs_get kwargs "exclude_external" (VBool false))).
  - rewrite !filter_filter_andb. apply List.filter_ext. intros it.
    unfold included. simpl.
    destruct (Nat.eqb (item_part it) (part_pk target)), (in_stock it),
      (location_external it); reflexivity.
  - rewrite filter_filter_andb. apply List.filter_ext. intros it.
    unfold included. simpl. rewrite andb_true_r. reflexivity.
Qed.

Lemma sum_Q_le {A} (f g : A -> Q) (l : list A) :
  Forall (fun x => f x <= g x) l ->
  sum_Q (map f l) <= sum_Q (map g l).
Proof.
  induction 1 as [|x l Hx _ IH]; simpl; lra.
Qed.

Lemma sum_Q_ext {A} (f g : A -> Q) (l : list A) :
  Forall (fun x => f x == g x) l ->
  sum_Q (map f l) == sum_Q (map g l).
Proof.
  induction 1 as [|x l Hx _ IH]; simpl; lra.
Qed.

Lemma included_entries_In env target excl it :
  In it (included_entries env target excl) <->
  In it (StockItem_objects env) /\
  item_part it = part_pk target /\
  in_stock it = true /\
  (excl = true -> location_external it = false).
Proof.
  unfold included_entries, included. rewrite List.filter_In.
  rewrite !andb_true_iff, orb_true_iff, !negb_true_iff, Nat.eqb_eq.
  destruct excl; intuition congruence.
Qed.

(** C1: for every part, requester and value of the exclude-external flag,
    [perform_stocktake] returns a snapshot whose quantity is the sum of the
    quantities of the included stock entries (those of the part itself that
    are in stock and, when external locations are excluded, not at an
    external location) and whose item count is the number of those
    entries. *)
Theorem stocktake_quantity_and_item_count
    env target user note0 commit (kwargs : gmap string Value) :
  let exclude_external :=
    value_truthy (kwargs_get kwargs "exclude_external" (VBool false)) in
  let entries := included_entries env target exclude_external in
  exists s tr,
    perform_stocktake env target user note0 commit kwargs = (Ok s, tr) /\
    st_quantity s == sum_Q (map quantity entries) /\
    item_count s = length entries /\
    (forall it,
        In it entries <->
        In it (StockItem_objects env) /\
        item_part it = part_pk target /\
        in_stock it = true /\
        (exclude_external = true -> location_external it = false)).
Proof.
  intros exclude_external entries.
  destruct (perform_stocktake_run env target user note0 commit kwargs)
    as (s & logs & Hrun & _ & Hcount & Hq & _).
  rewrite selected_entries_included in Hcount, Hq.
  exists s. eexists. split; [exact Hrun|].
  split; [exact Hq|]. split; [exact Hcount|].
  intros it. apply included_entries_In.
Qed.

Lemma convert_money_falsy env v cur c :
  truthy v = false -> convert_money env v cur = Ok c -> amount c == 0.
Proof.
  unfold convert_money, truthy, money_bool. destruct v as [m|]; [|discriminate].
  intros Hz. apply negb_false_iff, Qeq_bool_iff in Hz.
  destruct (get_rate env (currency m) cur); [|discriminate].
  intros [= <-]. simpl. rewrite Hz. lra.
Qed.

Lemma uses_purchase_price_false env pricing base e :
  uses_purchase_price env base e = false ->
  entry_contribution env pricing base e =
  fallback_contribution env pricing base (quantity e).
Proof.
  unfold uses_purchase_price, entry_contribution.
  destruct (truthy (purchase_price e)); simpl; [|reflexivity].
  destruct (convert_money env (purchase_price e) base); [discriminate|reflexivity].
Qed.

(** C2 (amended): each entry resolves its cost in this order. A non-zero
    purchase price that converts is multiplied by the quantity and added to
    both accumulators. Otherwise the part pricing is used: when both
    fallback bounds convert, overall_min (overall_max when min is absent or
    zero) times the quantity goes to the min accumulator, and overall_max
    (overall_min when max is absent or zero) times the quantity to the max
    accumulator; when there is no non-zero bound, or the lower bound does
    not convert, nothing is added to either. No exception escapes. *)
Theorem pricing_resolution_order env pricing base e s :
  currency (total_cost_min s) = base ->
  currency (total_cost_max s) = base ->
  let p_min := py_or (overall_min pricing) (overall_max pricing) in
  let p_max := py_or (overall_max pricing) (overall_min pricing) in
  exists s',
    entry_body env pricing base e s = (s', Ok tt) /\
    (forall c,
        truthy (purchase_price e) = true ->
        convert_money env (purchase_price e) base = Ok c ->
        amount (total_cost_min s') == amount (total_cost_min s) + amount c * quantity e /\
        amount (total_cost_max s') == amount (total_cost_max s) + amount c * quantity e) /\
    (uses_purchase_price env base e = false ->
     forall a b,
        convert_money env p_min base = Ok a ->
        convert_money env p_max base = Ok b ->
        amount (total_cost_min s') == amount (total_cost_min s) + amount a * quantity e /\
        amount (total_cost_max s') == amount (total_cost_max s) + amount b * quantity e) /\
    (uses_purchase_price env base e = false ->
     truthy p_min || truthy p_max = false \/
     convert_money env p_min base = Raise MissingRate ->
        amount (total_cost_min s') == amount (total_cost_min s) /\
        amount (total_cost_max s') == amount (total_cost_max s)).
Proof.
  intros Hmin Hmax p_min p_max.
  destruct (entry_body_run env pricing base e s Hmin Hmax)
    as (s' & Hrun & _ & _ & _ & H3 & H4 & _).
  exists s'. split; [exact Hrun|]. split; [|split].
  - intros c Hpp Hc. unfold entry_contribution in H3, H4.
    rewrite Hpp, Hc in H3, H4. simpl in H3, H4. split; assumption.
  - intros Hno a b Ha Hb.
    rewrite (uses_purchase_price_false _ _ _ _ Hno) in H3, H4.
    unfold fallback_contribution in H3, H4. fold p_min p_max in H3, H4.
    rewrite Ha, Hb in H3, H4.
    destruct (truthy p_min || truthy p_max) eqn:Ht; simpl in H3, H4.
    + split; assumption.
    + apply orb_false_iff in Ht as [Ht1 Ht2].
      pose proof (convert_money_falsy _ _ _ _ Ht1 Ha) as Za.
      pose proof (convert_money_falsy _ _ _ _ Ht2 Hb) as Zb.
      rewrite H3, H4, Za, Zb. split; lra.
  - intros Hno Hcase.
    rewrite (uses_purchase_price_false _ _ _ _ Hno) in H3, H4.
    unfold fallback_contribution in H3, H4. fold p_min p_max in H3, H4.
    destruct Hcase as [Ht|Hr].
    + rewrite Ht in H3, H4. simpl in H3, H4. rewrite H3, H4. split; lra.
    + rewrite Hr in H3, H4.
      destruct (truthy p_min || truthy p_max); simpl in H3, H4;
        rewrite H3, H4; split; lra.
Qed.

Lemma pricing_resolution_order_witness :
  exists s',
    entry_body Demo.env0 (pricing Demo.widget) "USD"
               (mkItem 1 (Some Demo.shelf) true 5 (Some (Demo.usd 10)))
               Demo.locals0 = (s', Ok tt) /\
    amount (total_cost_min s') == 50 /\ amount (total_cost_max s') == 50.
Proof.
  destruct (pricing_resolution_order Demo.env0 (pricing Demo.widget) "USD"
              (mkItem 1 (Some Demo.shelf) true 5 (Some (Demo.usd 10)))
              Demo.locals0 eq_refl eq_refl) as (s' & Hrun & Hpp & _).
  exists s'. split; [exact Hrun|].
  destruct (Hpp (mkMoney (10 * 1) "USD")) as [H1 H2].
  - reflexivity.
  - reflexivity.
  - split; [rewrite H1|rewrite H2]; reflexivity.
Defined.

(** C2 as stated fails: the entry has no purchase price and the conversion
    of the upper fallback bound fails, yet the entry adds 10 to the min
    accumulator instead of nothing. *)
Lemma fallback_failure_adds_to_min :
  let pricing := pricing Demo.gadget in
  let s' := fst (entry_body Demo.env_mixed pricing "USD" Demo.unpriced_entry
                            Demo.locals0) in
  purchase_price Demo.unpriced_entry = None /\
  convert_money Demo.env_mixed (py_or (overall_max pricing) (overall_min pricing)) "USD"
    = Raise MissingRate /\
  snd (entry_body Demo.env_mixed pricing "USD" Demo.unpriced_entry Demo.locals0)
    = Ok tt /\
  amount (total_cost_min s') == 10 /\
  ~ amount (total_cost_min s') == amount (total_cost_min Demo.locals0).
Proof.
  vm_compute. repeat split; try reflexivity. discriminate.
Qed.

Lemma entry_contribution_le env pricing e :
  bounds_consistent env pricing ->
  0 <= quantity e ->
  fst (entry_contribution env pricing (currency_code_default env) e) <=
  snd (entry_contribution env pricing (currency_code_default env) e).
Proof.
  intros Hb Hq. unfold entry_contribution.
  assert (Hf : fst (fallback_contribution env pricing (currency_code_default env) (quantity e))
               <= snd (fallback_contribution env pricing (currency_code_default env) (quantity e))).
  { unfold fallback_contribution.
    destruct (truthy _ || truthy _); simpl; [|lra].
    destruct (convert_money env (py_or (overall_min pricing) (overall_max pricing)) _)
      as [a|x] eqn:Ha; simpl; [|lra].
    destruct (Hb a Ha) as (b & Hbm & Hab). rewrite Hbm. simpl. nra. }
  destruct (truthy (purchase_price e)); [|exact Hf].
  destruct (convert_money env (purchase_price e) _); [simpl; lra|exact Hf].
Qed.

(** Bounds kept in one currency, the lower not above the upper, and a
    non-negative exchange rate make the fallback bounds consistent. *)
Lemma same_currency_bounds_consistent env lo hi valid :
  currency lo = currency hi ->
  amount lo <= amount hi ->
  (forall r, get_rate env (currency lo) (currency_code_default env) = Ok r -> 0 <= r) ->
  bounds_consistent env (mkPricing valid (Some lo) (Some hi)).
Proof.
  intros Hcur Hle Hrate a. unfold py_or. simpl.
  assert (Hconv : forall x y c,
             (x = lo \/ x = hi) -> (y = lo \/ y = hi) -> amount x <= amount y ->
             convert_money env (Some x) (currency_code_default env) = Ok c ->
             exists b, convert_money env (Some y) (currency_code_default env) = Ok b /\
                       amount c <= amount b).
  { intros x y c Hx Hy Hxy. unfold convert_money.
    assert (Hcx : currency x = currency lo) by (destruct Hx; subst; congruence).
    assert (Hcy : currency y = currency lo) by (destruct Hy; subst; congruence).
    rewrite Hcx, Hcy.
    destruct (get_rate env (currency lo) (currency_code_default env)) as [r|] eqn:Hr;
      [|discriminate].
    intros [= <-]. eexists; split; [reflexivity|]. simpl.
    specialize (Hrate r eq_refl). nra. }
  unfold money_bool.
  destruct (Qeq_bool (amount lo) 0) eqn:Zlo, (Qeq_bool (amount hi) 0) eqn:Zhi; simpl;
    intros Ha.
  - eapply (Hconv hi lo); eauto.
    apply Qeq_bool_iff in Zlo, Zhi. lra.
  - eapply (Hconv hi hi); eauto. lra.
  - eapply (Hconv lo lo); eauto. lra.
  - eapply (Hconv lo hi); eauto.
Qed.

(** C3 (amended): the snapshot has cost_min <= cost_max whenever every
    entry counted has a non-negative quantity and the fallback bounds of
    the pricing record in use are consistent (once the lower bound
    converts, the upper bound converts too and is not below it). *)
Theorem cost_min_le_cost_max env target user note0 commit (kwargs : gmap string Value) :
  Forall (fun e => 0 <= quantity e) (selected_entries env target kwargs) ->
  bounds_consistent env (fst (cached_pricing env target)) ->
  exists s tr,
    perform_stocktake env target user note0 commit kwargs = (Ok s, tr) /\
    amount (cost_min s) <= amount (cost_max s).
Proof.
  intros Hq Hb.
  destruct (perform_stocktake_run env target user note0 commit kwargs)
    as (s & logs & Hrun & _ & _ & _ & Hmin & Hmax & _).
  exists s. eexists. split; [exact Hrun|].
  rewrite Hmin, Hmax. apply sum_Q_le.
  eapply List.Forall_impl; [|exact Hq]. simpl. intros e He.
  apply entry_contribution_le; assumption.
Qed.

Lemma cost_min_le_cost_max_witness :
  exists s tr,
    perform_stocktake Demo.env0 Demo.widget VNone "" false ∅ = (Ok s, tr) /\
    amount (cost_min s) <= amount (cost_max s).
Proof.
  apply (cost_min_le_cost_max Demo.env0 Demo.widget VNone "" false ∅).
  - repeat constructor; discriminate.
  - intros a Ha. discriminate Ha.
Defined.

(** C3 as stated fails: one unpriced entry of quantity 2, a lower bound of
    5 in the base currency and an upper bound in a currency without rate
    give cost_min = 10 and cost_max = 0. *)
Lemma cost_min_above_cost_max :
  exists s tr,
    perform_stocktake Demo.env_mixed Demo.gadget VNone "" false ∅ = (Ok s, tr) /\
    amount (cost_min s) == 10 /\ amount (cost_max s) == 0 /\
    ~ amount (cost_min s) <= amount (cost_max s).
Proof.
  eexists. eexists. split; [vm_compute; reflexivity|].
  simpl. repeat split; try reflexivity.
  intros H. vm_compute in H. apply H. reflexivity.
Qed.

(** C10: in the fallback, the lower bound is converted and added before the
    upper bound is converted. When the lower bound converts (to [a]) and
    the upper bound has no rate, no exception escapes and, in the snapshot
    returned, every entry that is not valued at its purchase price has
    added [a] times its quantity to cost_min and nothing to cost_max. *)
Theorem fallback_not_atomic env target user note0 commit (kwargs : gmap string Value) a :
  let pricing := fst (cached_pricing env target) in
  let base := currency_code_default env in
  let entries := selected_entries env target kwargs in
  convert_money env (py_or (overall_min pricing) (overall_max pricing)) base = Ok a ->
  convert_money env (py_or (overall_max pricing) (overall_min pricing)) base
    = Raise MissingRate ->
  exists s tr,
    perform_stocktake env target user note0 commit kwargs = (Ok s, tr) /\
    amount (cost_min s) ==
      sum_Q (map (fun e => if uses_purchase_price env base e
                           then fst (entry_contribution env pricing base e)
                           else amount a * quantity e) entries) /\
    amount (cost_max s) ==
      sum_Q (map (fun e => if uses_purchase_price env base e
                           then snd (entry_contribution env pricing base e)
                           else 0) entries).
Proof.
  intros pricing base entries Ha Hb.
  destruct (perform_stocktake_run env target user note0 commit kwargs)
    as (s & logs & Hrun & _ & _ & _ & Hmin & Hmax & _).
  fold pricing base entries in Hmin, Hmax.
  exists s. eexists. split; [exact Hrun|].
  assert (Hf : forall q, fst (fallback_contribution env pricing base q) == amount a * q /\
                         snd (fallback_contribution env pricing base q) == 0).
  { intros q. unfold fallback_contribution. rewrite Ha, Hb.
    destruct (truthy _ || truthy _) eqn:Ht; simpl; [split; lra|].
    apply orb_false_iff in Ht as [Ht _].
    rewrite (convert_money_falsy _ _ _ _ Ht Ha). split; lra. }
  split.
  - rewrite Hmin. apply sum_Q_ext, Forall_forall. intros e _.
    destruct (uses_purchase_price env base e) eqn:Hu; [lra|].
    rewrite (uses_purchase_price_false _ _ _ _ Hu). apply Hf.
  - rewrite Hmax. apply sum_Q_ext, Forall_forall. intros e _.
    destruct (uses_purchase_price env base e) eqn:Hu; [lra|].
    rewrite (uses_purchase_price_false _ _ _ _ Hu). apply Hf.
Qed.

Lemma fallback_not_atomic_witness :
  exists s tr,
    perform_stocktake Demo.env_mixed Demo.gadget VNone "" false ∅ = (Ok s, tr) /\
    amount (cost_min s) == 10 /\ amount (cost_max s) == 0.
Proof.
  destruct (fallback_not_atomic Demo.env_mixed Demo.gadget VNone "" false ∅
              (mkMoney (5 * 1) "USD") eq_refl eq_refl) as (s & tr & Hrun & H1 & H2).
  exists s, tr. split; [exact Hrun|].
  split; [rewrite H1|rewrite H2]; reflexivity.
Defined.

(** ** Properties of [generate_stocktake_report] *)

Lemma cached_pricing_bookkeeping env target :
  Forall (fun e => is_bookkeeping e = true) (snd (cached_pricing env target)).
Proof.
  unfold cached_pricing. destruct (negb (is_valid (pricing target))); simpl;
    repeat constructor.
Qed.

Lemma map_Log_bookkeeping logs :
  Forall (fun e => is_bookkeeping e = true) (map Log logs).
Proof.
  induction logs; simpl; constructor; auto.
Qed.

Lemma part_snapshot_run env user excl p :
  exists s tr,
    perform_stocktake env p user "" false {[ "exclude_external" := excl ]} = (Ok s, tr) /\
    part_snapshot env user excl p = Ok s /\
    Forall (fun e => is_bookkeeping e = true) tr.
Proof.
  destruct (perform_stocktake_run env p user "" false {[ "exclude_external" := excl ]})
    as (s & logs & Hrun & _).
  exists s. eexists. split; [exact Hrun|]. split.
  - unfold part_snapshot. rewrite Hrun. reflexivity.
  - rewrite app_nil_r. apply Forall_app. split.
    + apply cached_pricing_bookkeeping.
    + apply map_Log_bookkeeping.
Qed.

Lemma counted_snapshots_cons env user excl p parts s :
  part_snapshot env user excl p = Ok s ->
  counted_snapshots env user excl (p :: parts) =
  (if Qeq_bool (st_quantity s) 0 then [] else [(p, s)])
    ++ counted_snapshots env user excl parts.
Proof.
  intros Hs. unfold counted_snapshots, part_snapshots. simpl. rewrite Hs. simpl.
  unfold nonzero_quantity at 1. simpl.
  destruct (Qeq_bool (st_quantity s) 0); reflexivity.
Qed.

Lemma stocktake_loop_cons env user excl p rest v s tr :
  perform_stocktake env p user "" false {[ "exclude_external" := excl ]} = (Ok s, tr) ->
  stocktake_loop env user excl (p :: rest) v =
  if Qeq_bool (st_quantity s) 0 then
    stocktake_loop env user excl rest
      (mkLoopVars (stocktake_instances v) (total_parts v) (dataset v) (effects v ++ tr))
  else
    stocktake_loop env user excl rest
      (mkLoopVars (stocktake_instances v ++ [s]) (total_parts v + 1)
                  (dataset_append (dataset v) (stocktake_row env p s))
                  (effects v ++ tr)).
Proof.
  intros Hrun. simpl. rewrite Hrun. reflexivity.
Qed.

Lemma stocktake_loop_run env user excl parts : forall v,
  let counted := counted_snapshots env user excl parts in
  exists v',
    stocktake_loop env user excl parts v = (v', Ok tt) /\
    stocktake_instances v' = stocktake_instances v ++ map snd counted /\
    total_parts v' = (total_parts v + length counted)%nat /\
    headers (dataset v') = headers (dataset v) /\
    rows (dataset v') =
      rows (dataset v) ++ map (fun ps => stocktake_row env (fst ps) (snd ps)) counted /\
    exists tr, effects v' = effects v ++ tr /\
               Forall (fun e => is_bookkeeping e = true) tr.
Proof.
  induction parts as [|p parts IH]; intros v counted.
  - exists v. subst counted. simpl.
    rewrite !app_nil_r, Nat.add_0_r. do 5 (split; [reflexivity|]).
    exists []. rewrite app_nil_r. split; [reflexivity|constructor].
  - destruct (part_snapshot_run env user excl p) as (s & tr & Hrun & Hsnap & Htr).
    subst counted.
    rewrite (counted_snapshots_cons _ _ _ _ _ _ Hsnap).
    rewrite (stocktake_loop_cons _ _ _ _ _ _ _ _ Hrun).
    destruct (Qeq_bool (st_quantity s) 0) eqn:Hz.
    + destruct (IH (mkLoopVars (stocktake_instances v) (total_parts v) (dataset v)
                               (effects v ++ tr)))
        as (v' & Hloop & Hi & Ht & Hh & Hr & tr' & He & Hb).
      exists v'. split; [exact Hloop|]. simpl in *.
      do 4 (split; [assumption|]).
      exists (tr ++ tr'). rewrite He, app_assoc. split; [reflexivity|].
      apply Forall_app. split; assumption.
    + destruct (IH (mkLoopVars (stocktake_instances v ++ [s]) (total_parts v + 1)
                               (dataset_append (dataset v) (stocktake_row env p s))
                               (effects v ++ tr)))
        as (v' & Hloop & Hi & Ht & Hh & Hr & tr' & He & Hb).
      exists v'. split; [exact Hloop|]. simpl in *.
      split; [rewrite Hi, <- app_assoc; reflexivity|].
      split; [rewrite Ht; lia|].
      split; [assumption|].
      split; [rewrite Hr, <- app_assoc; reflexivity|].
      exists (tr ++ tr'). rewrite He, app_assoc. split; [reflexivity|].
      apply Forall_app. split; assumption.
Qed.

(** The run of the whole function on a non-empty part set. *)
Lemma generate_stocktake_report_run env (kwargs : gmap string Value) parts :
  filtered_parts env kwargs = Ok parts ->
  parts <> [] ->
  let user := kwargs_get kwargs "user" VNone in
  let counted := counted_snapshots env user (report_exclude_external env kwargs) parts in
  let v := mkLoopVars (map snd counted) (length counted)
             (mkDataset (report_headers env (currency_code_default env))
                        (map (fun ps => stocktake_row env (fst ps) (snd ps)) counted))
             [] in
  exists pre,
    generate_stocktake_report env kwargs =
      (Ok VNone,
       pre ++ finish_report env user
                (kwargs_get kwargs "generate_report" (VBool true))
                (kwargs_get kwargs "update_parts" (VBool true)) v) /\
    Forall (fun e => is_bookkeeping e = true) pre.
Proof.
  intros Hparts Hne user counted v.
  unfold generate_stocktake_report. rewrite Hparts.
  destruct parts as [|p parts]; [congruence|].
  change (Nat.eqb (length (p :: parts)) 0) with false. cbv iota.
  destruct (stocktake_loop_run env user (report_exclude_external env kwargs) (p :: parts)
              (mkLoopVars [] 0 (mkDataset (report_headers env (currency_code_default env)) [])
                          [Log (info_generating (length (p :: parts)))]))
    as (v' & Hloop & Hi & Ht & Hh & Hr & tr & He & Hb).
  fold user. rewrite Hloop. simpl in Hi, Ht, Hh, Hr, He.
  exists (effects v'). split.
  - f_equal. f_equal. unfold finish_report.
    fold counted in Hi, Ht, Hr.
    destruct (dataset v') as [hs rs]. simpl in Hh, Hr.
    rewrite Hi, Ht. subst hs rs. reflexivity.
  - rewrite He. constructor; [reflexivity|assumption].
Qed.

Lemma finish_report_In_CreateReport env user g u v r :
  In (CreateReport r) (finish_report env user g u v) ->
  r = mkReport (mkContentFile (export_csv env (dataset v))
                  ("InvenTree_Stocktake_" +:+ isoformat (today env) +:+ ".csv"))
               (total_parts v) user.
Proof.
  unfold finish_report. intros H.
  apply in_app_or in H as [H|H]; [|apply in_app_or in H as [H|H]].
  - destruct (value_truthy g); [|contradiction].
    destruct H as [[= <-]|H]; [reflexivity|].
    destruct (value_truthy user); [|contradiction].
    destruct H as [H|[]]. discriminate H.
  - destruct (value_truthy u); [|contradiction].
    destruct H as [H|[]]. discriminate H.
  - destruct H as [H|[]]. discriminate H.
Qed.

Lemma finish_report_In_BulkCreate env user g u v objs n :
  In (BulkCreate objs n) (finish_report env user g u v) ->
  objs = stocktake_instances v /\ n = 500%nat.
Proof.
  unfold finish_report. intros H.
  apply in_app_or in H as [H|H]; [|apply in_app_or in H as [H|H]].
  - destruct (value_truthy g); [|contradiction].
    destruct H as [H|H]; [discriminate H|].
    destruct (value_truthy user); [|contradiction].
    destruct H as [H|[]]. discriminate H.
  - destruct (value_truthy u); [|contradiction].
    destruct H as [[= <- <-]|[]]. split; reflexivity.
  - destruct H as [H|[]]. discriminate H.
Qed.

Lemma bookkeeping_not_CreateReport pre r :
  Forall (fun e => is_bookkeeping e = true) pre -> ~ In (CreateReport r) pre.
Proof.
  intros Hb Hin. rewrite List.Forall_forall in Hb. specialize (Hb _ Hin). discriminate Hb.
Qed.

Lemma bookkeeping_not_BulkCreate pre objs n :
  Forall (fun e => is_bookkeeping e = true) pre -> ~ In (BulkCreate objs n) pre.
Proof.
  intros Hb Hin. rewrite List.Forall_forall in Hb. specialize (Hb _ Hin). discriminate Hb.
Qed.

Lemma bookkeeping_not_TriggerNotification pre r c t :
  Forall (fun e => is_bookkeeping e = true) pre -> ~ In (TriggerNotification r c t) pre.
Proof.
  intros Hb Hin. rewrite List.Forall_forall in Hb. specialize (Hb _ Hin). discriminate Hb.
Qed.

Lemma empty_filtered_parts_run env (kwargs : gmap string Value) :
  filtered_parts env kwargs = Ok [] ->
  generate_stocktake_report env kwargs = (Ok VNone, [Log info_no_parts_selected]).
Proof.
  intros H. unfold generate_stocktake_report. rewrite H. reflexivity.
Qed.

(** What a report run stores, whatever the part set. *)
Lemma generate_stocktake_report_stores env (kwargs : gmap string Value) parts :
  filtered_parts env kwargs = Ok parts ->
  let user := kwargs_get kwargs "user" VNone in
  let counted := counted_snapshots env user (report_exclude_external env kwargs) parts in
  let tr := snd (generate_stocktake_report env kwargs) in
  (forall objs n, In (BulkCreate objs n) tr -> objs = map snd counted /\ n = 500%nat) /\
  (forall r, In (CreateReport r) tr ->
     r = mkReport
           (mkContentFile
              (export_csv env
                 (mkDataset (report_headers env (currency_code_default env))
                            (map (fun ps => stocktake_row env (fst ps) (snd ps)) counted)))
              ("InvenTree_Stocktake_" +:+ isoformat (today env) +:+ ".csv"))
           (length counted) user).
Proof.
  intros Hparts user counted tr. subst tr.
  destruct parts as [|p parts].
  - rewrite (empty_filtered_parts_run _ _ Hparts). simpl.
    split; intros; intuition discriminate.
  - destruct (generate_stocktake_report_run env kwargs (p :: parts) Hparts)
      as (pre & Hrun & Hpre); [discriminate|].
    rewrite Hrun. simpl. split.
    + intros objs n Hin. apply in_app_or in Hin as [Hin|Hin].
      * exfalso. exact (bookkeeping_not_BulkCreate _ _ _ Hpre Hin).
      * apply finish_report_In_BulkCreate in Hin. exact Hin.
    + intros r Hin. apply in_app_or in Hin as [Hin|Hin].
      * exfalso. exact (bookkeeping_not_CreateReport _ _ Hpre Hin).
      * apply finish_report_In_CreateReport in Hin. exact Hin.
Qed.

Lemma counted_snapshots_nonzero env user excl parts :
  Forall (fun ps => ~ st_quantity (snd ps) == 0) (counted_snapshots env user excl parts).
Proof.
  apply List.Forall_forall. intros ps Hin.
  apply List.filter_In in Hin as [_ Hnz]. unfold nonzero_quantity in Hnz.
  apply negb_true_iff in Hnz. intros Hz. apply Qeq_bool_iff in Hz. congruence.
Qed.

(** C7: in every run the snapshots with quantity zero add no row to the
    exported dataset and are not in the list given to the bulk insert; the
    part count of the report is the number of parts whose snapshot has a
    non-zero quantity. *)
Theorem zero_quantity_snapshots_skipped env (kwargs : gmap string Value) parts :
  filtered_parts env kwargs = Ok parts ->
  let user := kwargs_get kwargs "user" VNone in
  let counted := counted_snapshots env user (report_exclude_external env kwargs) parts in
  let tr := snd (generate_stocktake_report env kwargs) in
  Forall (fun ps => ~ st_quantity (snd ps) == 0) counted /\
  (forall objs n, In (BulkCreate objs n) tr ->
     objs = map snd counted /\
     Forall (fun s => ~ st_quantity s == 0) objs) /\
  (forall r, In (CreateReport r) tr ->
     exists d,
       file_content (report r) = export_csv env d /\
       rows d = map (fun ps => stocktake_row env (fst ps) (snd ps)) counted /\
       Forall (fun row => ~ row_quantity row == 0) (rows d) /\
       part_count r = length counted).
Proof.
  intros Hparts user counted tr.
  pose proof (counted_snapshots_nonzero env user (report_exclude_external env kwargs) parts)
    as Hnz. fold counted in Hnz.
  destruct (generate_stocktake_report_stores env kwargs parts Hparts) as [Hbulk Hrep].
  split; [exact Hnz|]. split.
  - intros objs n Hin. destruct (Hbulk objs n Hin) as [-> _].
    split; [reflexivity|]. apply List.Forall_map. exact Hnz.
  - intros r Hin. rewrite (Hrep r Hin). eexists. simpl.
    split; [reflexivity|]. simpl. split; [reflexivity|].
    split; [|reflexivity]. apply List.Forall_map. exact Hnz.
Qed.

Lemma zero_quantity_snapshots_skipped_witness :
  Forall (fun ps => ~ st_quantity (snd ps) == 0)
         (counted_snapshots Demo.env_two VNone (VBool false) [Demo.widget; Demo.gadget]) /\
  map (fun ps => part_pk (fst ps))
      (counted_snapshots Demo.env_two VNone (VBool false) [Demo.widget; Demo.gadget])
    = [1%nat].
Proof.
  split.
  - exact (proj1 (zero_quantity_snapshots_skipped Demo.env_two ∅
                    [Demo.widget; Demo.gadget] eq_refl)).
  - reflexivity.
Defined.

(** C8: when the filters leave no part, the function returns [None] and
    does nothing but log: it creates no report, stores no snapshot and
    sends no notification. *)
Theorem empty_part_set_is_noop env (kwargs : gmap string Value) :
  filtered_parts env kwargs = Ok [] ->
  generate_stocktake_report env kwargs = (Ok VNone, [Log info_no_parts_selected]) /\
  Forall (fun e => is_log e = true) (snd (generate_stocktake_report env kwargs)) /\
  (forall r, ~ In (CreateReport r) (snd (generate_stocktake_report env kwargs))) /\
  (forall objs n, ~ In (BulkCreate objs n) (snd (generate_stocktake_report env kwargs))) /\
  (forall s, ~ In (SaveStocktake s) (snd (generate_stocktake_report env kwargs))) /\
  (forall r c t,
      ~ In (TriggerNotification r c t) (snd (generate_stocktake_report env kwargs))).
Proof.
  intros H. rewrite (empty_filtered_parts_run env kwargs H). simpl.
  split; [reflexivity|]. split; [repeat constructor|].
  repeat split; intros; intros [Hin|[]]; discriminate Hin.
Qed.

Lemma empty_part_set_is_noop_witness :
  generate_stocktake_report Demo.env_empty ∅ = (Ok VNone, [Log info_no_parts_selected]).
Proof.
  exact (proj1 (empty_part_set_is_noop Demo.env_empty ∅ eq_refl)).
Defined.

(** C9: with [generate_report] false and [update_parts] true, on a
    non-empty part set, the snapshots of non-zero quantity are inserted by
    one [bulk_create] call with batch size 500, which is, with a closing log
    line, the last thing done; before it there are only log lines and
    pricing refreshes, so no report record is created and no notification
    is sent. *)
Theorem update_parts_without_report env (kwargs : gmap string Value) parts :
  filtered_parts env kwargs = Ok parts ->
  parts <> [] ->
  kwargs_get kwargs "generate_report" (VBool true) = VBool false ->
  kwargs_get kwargs "update_parts" (VBool true) = VBool true ->
  let user := kwargs_get kwargs "user" VNone in
  let counted := counted_snapshots env user (report_exclude_external env kwargs) parts in
  exists pre,
    generate_stocktake_report env kwargs =
      (Ok VNone,
       pre ++ [BulkCreate (map snd counted) 500; Log (info_generated (length counted))]) /\
    Forall (fun e => is_bookkeeping e = true) pre /\
    Forall (fun s => ~ st_quantity s == 0) (map snd counted) /\
    (forall r, ~ In (CreateReport r) (snd (generate_stocktake_report env kwargs))) /\
    (forall r c t,
        ~ In (TriggerNotification r c t) (snd (generate_stocktake_report env kwargs))).
Proof.
  intros Hparts Hne Hgen Hupd user counted.
  destruct (generate_stocktake_report_run env kwargs parts Hparts Hne)
    as (pre & Hrun & Hpre).
  fold user counted in Hrun. rewrite Hgen, Hupd in Hrun.
  unfold finish_report in Hrun. simpl in Hrun.
  exists pre. split; [exact Hrun|]. split; [exact Hpre|].
  split; [apply List.Forall_map, counted_snapshots_nonzero|].
  rewrite Hrun. simpl. split.
  - intros r Hin. apply in_app_or in Hin as [Hin|Hin].
    + exact (bookkeeping_not_CreateReport _ _ Hpre Hin).
    + destruct Hin as [Hin|[Hin|[]]]; discriminate Hin.
  - intros r c t Hin. apply in_app_or in Hin as [Hin|Hin].
    + exact (bookkeeping_not_TriggerNotification _ _ _ _ Hpre Hin).
    + destruct Hin as [Hin|[Hin|[]]]; discriminate Hin.
Qed.

Lemma update_parts_without_report_witness :
  exists pre objs,
    generate_stocktake_report Demo.env_two Demo.kwargs_update_only =
      (Ok VNone, pre ++ [BulkCreate objs 500; Log (info_generated (length objs))]) /\
    Forall (fun s => ~ st_quantity s == 0) objs /\
    ~ exists r,
        In (CreateReport r)
           (snd (generate_stocktake_report Demo.env_two Demo.kwargs_update_only)).
Proof.
  destruct (update_parts_without_report Demo.env_two Demo.kwargs_update_only
              [Demo.widget; Demo.gadget]) as (pre & Hrun & _ & Hnz & Hnorep & _);
    [vm_compute; reflexivity|discriminate|vm_compute; reflexivity
    |vm_compute; reflexivity|].
  exists pre. eexists. split; [|split].
  - rewrite List.length_map. exact Hrun.
  - exact Hnz.
  - intros [r Hin]. exact (Hnorep r Hin).
Defined.

Lemma is_digit_digit n : is_digit (digit n) = true.
Proof.
  unfold digit.
  assert (H : (n mod 10 < 10)%nat) by (apply Nat.mod_upper_bound; discriminate).
  destruct (n mod 10)%nat as [|[|[|[|[|[|[|[|[|[|k]]]]]]]]]]; try reflexivity; lia.
Qed.

Lemma isoformat_shape d : is_iso_date (isoformat d) = true.
Proof.
  unfold isoformat, digits4, digits2, is_iso_date. cbv [String.append].
  rewrite !is_digit_digit. reflexivity.
Qed.

(** C6 (amended): every report record created holds the CSV export of the
    dataset in a file named InvenTree_Stocktake_<YYYY-MM-DD>.csv, where the
    date is the ISO form of the current date, read once for the run. *)
Theorem report_file_name env (kwargs : gmap string Value) r :
  In (CreateReport r) (snd (generate_stocktake_report env kwargs)) ->
  file_name (report r) =
    "InvenTree_Stocktake_" +:+ isoformat (today env) +:+ ".csv" /\
  is_iso_date (isoformat (today env)) = true /\
  exists d, file_content (report r) = export_csv env d.
Proof.
  intros Hin.
  split; [|split; [apply isoformat_shape|]].
  - destruct (filtered_parts env kwargs) as [parts|x] eqn:Hparts.
    + rewrite (proj2 (generate_stocktake_report_stores env kwargs parts Hparts) r Hin).
      reflexivity.
    + unfold generate_stocktake_report in Hin. rewrite Hparts in Hin. destruct Hin.
  - destruct (filtered_parts env kwargs) as [parts|x] eqn:Hparts.
    + rewrite (proj2 (generate_stocktake_report_stores env kwargs parts Hparts) r Hin).
      eexists. reflexivity.
    + unfold generate_stocktake_report in Hin. rewrite Hparts in Hin. destruct Hin.
Qed.

Lemma report_file_name_witness :
  exists r,
    In (CreateReport r) (snd (generate_stocktake_report Demo.env0 ∅)) /\
    file_name (report r) = "InvenTree_Stocktake_2023-04-09.csv".
Proof.
  eexists. split.
  - vm_compute. right. left. reflexivity.
  - match goal with
    | |- file_name (report ?r) = _ =>
        destruct (report_file_name Demo.env0 ∅ r) as [Hname _];
          [vm_compute; right; left; reflexivity|]
    end.
    rewrite Hname. reflexivity.
Defined.

(** C6 as stated fails: the report of 2023-04-09 is not stored under the
    name Stocktake_2023-04-09.csv. *)
Lemma bare_stocktake_name_refuted :
  exists r,
    In (CreateReport r) (snd (generate_stocktake_report Demo.env0 ∅)) /\
    file_name (report r) = "InvenTree_Stocktake_2023-04-09.csv" /\
    file_name (report r) <> "Stocktake_" +:+ isoformat (today Demo.env0) +:+ ".csv".
Proof.
  eexists. split; [vm_compute; right; left; reflexivity|].
  split; [reflexivity|]. vm_compute. discriminate.
Qed.

Lemma mem_nat_In n l : mem_nat n l = true <-> In n l.
Proof.
  unfold mem_nat. rewrite existsb_exists. split.
  - intros (x & Hin & Heq). apply Nat.eqb_eq in Heq. subst. exact Hin.
  - intros Hin. exists n. split; [exact Hin|apply Nat.eqb_refl].
Qed.

Lemma items_within_In env locations excl it :
  In it (items_within env locations excl) <->
  In it (StockItem_objects env) /\
  (exists il, location it = Some il /\ In (loc_pk il) (map loc_pk locations)) /\
  (value_truthy excl = true -> location_external it = false).
Proof.
  unfold items_within, exclude_location_external.
  destruct (value_truthy excl).
  - rewrite !List.filter_In, negb_true_iff. split.
    + intros [[Hin Hloc] Hext]. split; [exact Hin|]. split; [|intros _; exact Hext].
      destruct (location it) as [il|]; [|discriminate].
      exists il. split; [reflexivity|apply mem_nat_In; exact Hloc].
    + intros (Hin & (il & Hl & Hmem) & Hext).
      split; [split; [exact Hin|]|apply Hext; reflexivity].
      rewrite Hl. apply mem_nat_In. exact Hmem.
  - rewrite List.filter_In. split.
    + intros [Hin Hloc]. split; [exact Hin|]. split; [|discriminate].
      destruct (location it) as [il|]; [|discriminate].
      exists il. split; [reflexivity|apply mem_nat_In; exact Hloc].
    + intros (Hin & (il & Hl & Hmem) & _). split; [exact Hin|].
      rewrite Hl. apply mem_nat_In. exact Hmem.
Qed.

Lemma NoDup_filter_list {A} (f : A -> bool) (l : list A) :
  List.NoDup l -> List.NoDup (List.filter f l).
Proof.
  induction 1 as [|x l Hx Hnd IH]; simpl; [constructor|].
  destruct (f x); [|exact IH].
  constructor; [|exact IH]. intros Hin. apply List.filter_In in Hin. tauto.
Qed.

(** C5 (amended): with a location filter alone, the part set is the set of
    parts owning a stock item (in stock or not) whose location is the given
    one or one of its descendants, external locations being left out when
    they are excluded; a part without such an item is left out, and no part
    appears twice. *)
Theorem location_filter_parts env (kwargs : gmap string Value) l :
  kwargs !! "part" = None ->
  kwargs !! "category" = None ->
  kwargs !! "location" = Some (VLocation l) ->
  exists parts,
    filtered_parts env kwargs = Ok parts /\
    (forall p,
        In p parts <->
        In p (Part_objects env) /\
        exists it,
          In it (StockItem_objects env) /\
          item_part it = part_pk p /\
          (exists il, location it = Some il /\
                      In (loc_pk il) (map loc_pk (location_descendants env l))) /\
          (value_truthy (report_exclude_external env kwargs) = true ->
           location_external it = false)) /\
    (List.NoDup (Part_objects env) -> List.NoDup parts).
Proof.
  intros Hp Hc Hl.
  unfold filtered_parts, filter_by_part, filter_by_category, filter_by_location, kwargs_get.
  rewrite Hp, Hc, Hl. simpl.
  eexists. split; [reflexivity|]. split.
  - intros p. rewrite List.filter_In, mem_nat_In, nodup_In, in_map_iff.
    split.
    + intros [Hin (it & Hpart & Hit)]. split; [exact Hin|].
      exists it. apply items_within_In in Hit. tauto.
    + intros [Hin (it & Hit & Hpart & Hloc & Hext)]. split; [exact Hin|].
      exists it. split; [exact Hpart|]. apply items_within_In. tauto.
  - apply NoDup_filter_list.
Qed.

Lemma location_filter_parts_witness :
  exists parts,
    filtered_parts Demo.env0 {[ "location" := VLocation Demo.shelf ]} = Ok parts /\
    In Demo.widget parts.
Proof.
  destruct (location_filter_parts Demo.env0 {[ "location" := VLocation Demo.shelf ]}
              Demo.shelf) as (parts & Hrun & Hin & _);
    [vm_compute; reflexivity|vm_compute; reflexivity|vm_compute; reflexivity|].
  exists parts. split; [exact Hrun|]. apply Hin. split; [left; reflexivity|].
  eexists. split; [left; reflexivity|]. split; [reflexivity|].
  split; [|intros _; reflexivity].
  eexists. split; [reflexivity|]. left. reflexivity.
Defined.

(** C5 as stated fails: the only stock item of the widget lying on the
    shelf is not in stock, so no in-stock item is on the shelf, yet the
    location filter keeps the widget. *)
Lemma location_filter_keeps_part_without_stock :
  filtered_parts Demo.env_not_in_stock {[ "location" := VLocation Demo.shelf ]}
    = Ok [Demo.widget] /\
  ~ exists it,
      In it (StockItem_objects Demo.env_not_in_stock) /\
      item_part it = part_pk Demo.widget /\
      in_stock it = true /\
      exists il, location it = Some il /\
                 In (loc_pk il)
                    (map loc_pk (location_descendants Demo.env_not_in_stock Demo.shelf)).
Proof.
  split; [vm_compute; reflexivity|].
  intros (it & [<-|[]] & _ & Hstock & _). discriminate Hstock.
Qed.

(** C4, evaluated where it fails: the caller passes [exclude_external=True]
    while the site-wide setting is off; the value in use is the setting's,
    and the entry kept at the supplier's site is counted. *)
Theorem exclude_external_option_ignored :
  report_exclude_external Demo.env_external {[ "exclude_external" := VBool true ]}
    = VBool false /\
  exists s pre post,
    snd (generate_stocktake_report Demo.env_external
           {[ "exclude_external" := VBool true ]})
      = pre ++ BulkCreate [s] 500 :: post /\
    item_count s = 1%nat /\ st_quantity s == 5 /\
    included_entries Demo.env_external Demo.widget true = [].
Proof.
  split; [vm_compute; reflexivity|].
  eexists. eexists [_; _]. eexists. split; [vm_compute; reflexivity|].
  repeat split; reflexivity.
Qed.

(** The documented key plays no part in the value in use. *)
Lemma report_exclude_external_ignores_documented_key env (kwargs : gmap string Value) v :
  report_exclude_external env (<[ "exclude_external" := v ]> kwargs) =
  report_exclude_external env kwargs.
Proof.
  unfold report_exclude_external, kwargs_get.
  rewrite lookup_insert_ne by discriminate. reflexivity.
Qed.

(** ** Further properties of [perform_stocktake] *)

Lemma filter_nil_iff {A} (f : A -> bool) (l : list A) :
  (forall x, In x l -> f x = false) -> List.filter f l = [].
Proof.
  induction l as [|x l IH]; simpl; intros H; [reflexivity|].
  rewrite (H x) by (left; reflexivity). apply IH. intros y Hy. apply H. right. exact Hy.
Qed.

(** X1: a part none of whose own stock items is in stock gets the empty
    snapshot: no item, quantity 0, and both costs 0 in the base currency;
    nothing is logged beyond the pricing refresh. *)
Theorem stocktake_without_stock env target user note0 commit (kwargs : gmap string Value) :
  (forall it, In it (StockItem_objects env) ->
              item_part it = part_pk target -> in_stock it = false) ->
  let base := currency_code_default env in
  let s := mkStocktake target 0 0 (mkMoney 0 base) (mkMoney 0 base) note0 user in
  perform_stocktake env target user note0 commit kwargs =
    (Ok s, snd (cached_pricing env target) ++ (if commit then [SaveStocktake s] else [])).
Proof.
  intros Hnone base s.
  assert (Hsel : selected_entries env target kwargs = []).
  { rewrite selected_entries_included. unfold included_entries.
    apply filter_nil_iff. intros it Hin. unfold included.
    destruct (Nat.eqb (item_part it) (part_pk target)) eqn:Hpk; [|reflexivity].
    apply Nat.eqb_eq in Hpk. rewrite (Hnone it Hin Hpk). reflexivity. }
  unfold perform_stocktake. rewrite Hsel.
  destruct (cached_pricing env target) as [pr tr]. simpl.
  destruct commit; [reflexivity|]. rewrite app_nil_r. reflexivity.
Qed.

Lemma stocktake_without_stock_witness :
  fst (perform_stocktake Demo.env_two Demo.gadget VNone "" false ∅) =
  Ok (mkStocktake Demo.gadget 0 0 (mkMoney 0 "USD") (mkMoney 0 "USD") "" VNone).
Proof.
  rewrite (stocktake_without_stock Demo.env_two Demo.gadget VNone "" false ∅).
  - reflexivity.
  - intros it [<-|[<-|[]]]; discriminate.
Defined.


(** X3: [commit] only decides whether the snapshot is saved: the snapshot
    returned is the same, and with [commit] the run ends with the save of
    that very snapshot, while without it nothing is saved. *)
Theorem commit_saves_returned_snapshot
    env target user note0 (kwargs : gmap string Value) :
  exists s pre,
    perform_stocktake env target user note0 false kwargs = (Ok s, pre) /\
    perform_stocktake env target user note0 true kwargs
      = (Ok s, pre ++ [SaveStocktake s]) /\
    Forall (fun e => is_bookkeeping e = true) pre.
Proof.
  unfold perform_stocktake.
  pose proof (cached_pricing_bookkeeping env target) as Hcp.
  destruct (cached_pricing env target) as [pr tr]. simpl in Hcp.
  destruct (for_each_entry_run env pr (currency_code_default env)
              (selected_entries env target kwargs)
              (mkLocals 0 (mkMoney 0 (currency_code_default env))
                        (mkMoney 0 (currency_code_default env)) false tr))
    as (s' & Hrun & _ & _ & _ & _ & _ & logs & Hl); try reflexivity.
  rewrite Hrun. eexists. eexists. split; [reflexivity|]. split; [reflexivity|].
  rewrite Hl. simpl. apply Forall_app. split; [exact Hcp|apply map_Log_bookkeeping].
Qed.

Lemma filter_map_Log (f : Effect -> bool) logs :
  (forall r, f (Log r) = false) -> List.filter f (map Log logs) = [].
Proof.
  intros H. induction logs as [|r logs IH]; simpl; [reflexivity|].
  rewrite H. exact IH.
Qed.

(** X4: the pricing of the part is refreshed at most once, and only when
    the cached record is not valid; the refresh comes before any entry is
    valued. *)
Theorem pricing_refreshed_only_when_invalid
    env target user note0 commit (kwargs : gmap string Value) :
  exists s tr,
    perform_stocktake env target user note0 commit kwargs = (Ok s, tr) /\
    List.filter is_UpdatePricing tr =
      (if is_valid (pricing target) then [] else [UpdatePricing target]) /\
    (is_valid (pricing target) = false ->
     exists rest, tr = Log (info_pricing_not_valid target) :: UpdatePricing target :: rest).
Proof.
  destruct (perform_stocktake_run env target user note0 commit kwargs)
    as (s & logs & Hrun & _).
  exists s. eexists. split; [exact Hrun|]. split.
  - rewrite !List.filter_app, filter_map_Log by reflexivity.
    unfold cached_pricing.
    destruct (is_valid (pricing target)); destruct commit; reflexivity.
  - intros Hv. unfold cached_pricing. rewrite Hv. simpl. eexists. reflexivity.
Qed.

Lemma sum_Q_zero {A} (f : A -> Q) (l : list A) :
  Forall (fun x => f x == 0) l -> sum_Q (map f l) == 0.
Proof.
  induction 1 as [|x l Hx _ IH]; simpl; lra.
Qed.

Lemma fallback_contribution_no_bounds env pricing base q :
  truthy (overall_min pricing) = false ->
  truthy (overall_max pricing) = false ->
  fallback_contribution env pricing base q = (0, 0).
Proof.
  intros Hmin Hmax. unfold fallback_contribution, py_or.
  cbv zeta. repeat (rewrite ?Hmin, ?Hmax; cbv iota). reflexivity.
Qed.

(** X5: when no entry counted carries a non-zero purchase price and the
    pricing record in use has no non-zero bound, both costs of the snapshot
    are zero, and this is not an error. *)
Theorem unpriced_stock_costs_nothing
    env target user note0 commit (kwargs : gmap string Value) :
  Forall (fun e => truthy (purchase_price e) = false)
         (selected_entries env target kwargs) ->
  truthy (overall_min (fst (cached_pricing env target))) = false ->
  truthy (overall_max (fst (cached_pricing env target))) = false ->
  exists s tr,
    perform_stocktake env target user note0 commit kwargs = (Ok s, tr) /\
    amount (cost_min s) == 0 /\ amount (cost_max s) == 0.
Proof.
  intros Hpp Hmin Hmax.
  destruct (perform_stocktake_run env target user note0 commit kwargs)
    as (s & logs & Hrun & _ & _ & _ & H1 & H2 & _).
  exists s. eexists. split; [exact Hrun|].
  assert (Hc : Forall (fun e => entry_contribution env (fst (cached_pricing env target))
                                  (currency_code_default env) e = (0, 0))
                      (selected_entries env target kwargs)).
  { eapply List.Forall_impl; [|exact Hpp]. simpl. intros e He.
    unfold entry_contribution. rewrite He.
    apply fallback_contribution_no_bounds; assumption. }
  split.
  - rewrite H1. apply sum_Q_zero.
    eapply List.Forall_impl; [|exact Hc]. simpl. intros e ->. reflexivity.
  - rewrite H2. apply sum_Q_zero.
    eapply List.Forall_impl; [|exact Hc]. simpl. intros e ->. reflexivity.
Qed.

Lemma unpriced_stock_costs_nothing_witness :
  exists s tr,
    perform_stocktake
      (with_items Demo.env0 [mkItem 1 (Some Demo.shelf) true 5 None])
      Demo.widget VNone "" false ∅ = (Ok s, tr) /\
    amount (cost_min s) == 0 /\ amount (cost_max s) == 0.
Proof.
  apply (unpriced_stock_costs_nothing
           (with_items Demo.env0 [mkItem 1 (Some Demo.shelf) true 5 None])
           Demo.widget VNone "" false ∅).
  - vm_compute. repeat constructor.
  - reflexivity.
  - reflexivity.
Defined.

Lemma convert_money_base env m base :
  currency m = base ->
  convert_money env (Some m) base = Ok (mkMoney (amount m * 1) base).
Proof.
  intros H. unfold convert_money, get_rate. rewrite H, String.eqb_refl. reflexivity.
Qed.

(** X6: when every entry counted carries a non-zero purchase price in the
    base currency, the two costs of the snapshot coincide and are the sum
    of price times quantity over the entries; no exchange rate and no
    pricing bound plays a part. *)
Theorem base_currency_purchase_prices
    env target user note0 commit (kwargs : gmap string Value) :
  Forall (fun e => exists m, purchase_price e = Some m /\
                             ~ amount m == 0 /\
                             currency m = currency_code_default env)
         (selected_entries env target kwargs) ->
  exists s tr,
    perform_stocktake env target user note0 commit kwargs = (Ok s, tr) /\
    amount (cost_min s) ==
      sum_Q (map (fun e => price_amount e * quantity e)
                 (selected_entries env target kwargs)) /\
    amount (cost_max s) == amount (cost_min s).
Proof.
  intros Hpp.
  destruct (perform_stocktake_run env target user note0 commit kwargs)
    as (s & logs & Hrun & _ & _ & _ & H1 & H2 & _).
  exists s. eexists. split; [exact Hrun|].
  assert (Hc : Forall (fun e =>
                  fst (entry_contribution env (fst (cached_pricing env target))
                         (currency_code_default env) e) == price_amount e * quantity e /\
                  snd (entry_contribution env (fst (cached_pricing env target))
                         (currency_code_default env) e) == price_amount e * quantity e)
                 (selected_entries env target kwargs)).
  { eapply List.Forall_impl; [|exact Hpp]. simpl. intros e (m & Hm & Hnz & Hcur).
    unfold entry_contribution, price_amount. rewrite Hm.
    assert (Ht : truthy (Some m) = true).
    { simpl. unfold money_bool. apply negb_true_iff.
      destruct (Qeq_bool (amount m) 0) eqn:Hz; [|reflexivity].
      apply Qeq_bool_iff in Hz. contradiction. }
    rewrite Ht, (convert_money_base env m _ Hcur). simpl. split; lra. }
  assert (Hmin : amount (cost_min s) ==
                 sum_Q (map (fun e => price_amount e * quantity e)
                            (selected_entries env target kwargs))).
  { rewrite H1. apply sum_Q_ext.
    eapply List.Forall_impl; [|exact Hc]. simpl. tauto. }
  split; [exact Hmin|].
  rewrite Hmin, H2. apply sum_Q_ext.
  eapply List.Forall_impl; [|exact Hc]. simpl. tauto.
Qed.

Lemma base_currency_purchase_prices_witness :
  exists s tr,
    perform_stocktake Demo.env0 Demo.widget VNone "" false ∅ = (Ok s, tr) /\
    amount (cost_min s) == 86 /\ amount (cost_max s) == amount (cost_min s).
Proof.
  destruct (base_currency_purchase_prices Demo.env0 Demo.widget VNone "" false ∅)
    as (s & tr & Hrun & Hmin & Hmax).
  - vm_compute. repeat constructor; eexists; (split; [reflexivity|]);
      (split; [discriminate|reflexivity]).
  - exists s, tr. split; [exact Hrun|]. split; [|exact Hmax].
    rewrite Hmin. vm_compute. reflexivity.
Defined.

(** X7: stock is never counted twice: an entry counted in the stocktake of
    one part is not counted in the stocktake of a part with another key,
    be it a variant of the first, whatever the options of either run. *)
Theorem entries_of_distinct_parts_disjoint
    env p1 p2 (kwargs1 kwargs2 : gmap string Value) it :
  part_pk p1 <> part_pk p2 ->
  In it (selected_entries env p1 kwargs1) ->
  ~ In it (selected_entries env p2 kwargs2).
Proof.
  intros Hne H1 H2.
  rewrite selected_entries_included in H1, H2.
  apply included_entries_In in H1 as (_ & Hp1 & _).
  apply included_entries_In in H2 as (_ & Hp2 & _).
  congruence.
Qed.

Lemma entries_of_distinct_parts_disjoint_witness :
  ~ In (mkItem 1 (Some Demo.shelf) true 5 (Some (Demo.usd 10)))
       (selected_entries Demo.env_two Demo.gadget ∅).
Proof.
  apply (entries_of_distinct_parts_disjoint Demo.env_two Demo.widget Demo.gadget ∅ ∅).
  - discriminate.
  - vm_compute. left. reflexivity.
Defined.

Lemma included_entries_excluding env target :
  included_entries env target true =
  List.filter (fun it => negb (location_external it)) (included_entries env target false).
Proof.
  unfold included_entries. rewrite filter_filter_andb.
  apply List.filter_ext. intros it. unfold included. simpl.
  rewrite andb_true_r. reflexivity.
Qed.

Lemma sum_Q_filter_le (f : StockItem -> bool) (l : list StockItem) :
  Forall (fun e => 0 <= quantity e) l ->
  sum_Q (map quantity (List.filter f l)) <= sum_Q (map quantity l).
Proof.
  induction 1 as [|x l Hx _ IH]; simpl; [lra|].
  destruct (f x); simpl; lra.
Qed.

Lemma filter_length_le_list {A} (f : A -> bool) (l : list A) :
  (length (List.filter f l) <= length l)%nat.
Proof.
  induction l as [|x l IH]; simpl; [lia|]. destruct (f x); simpl; lia.
Qed.

(** X8: excluding external locations can only take entries away: the
    snapshot made with the exclusion has no more items than the one made
    without it, and, quantities not being negative, no greater quantity. *)
Theorem excluding_external_only_removes
    env target user note0 commit (kw_ex kw_all : gmap string Value) :
  value_truthy (kwargs_get kw_ex "exclude_external" (VBool false)) = true ->
  value_truthy (kwargs_get kw_all "exclude_external" (VBool false)) = false ->
  Forall (fun e => 0 <= quantity e) (StockItem_objects env) ->
  exists s_ex tr_ex s_all tr_all,
    perform_stocktake env target user note0 commit kw_ex = (Ok s_ex, tr_ex) /\
    perform_stocktake env target user note0 commit kw_all = (Ok s_all, tr_all) /\
    (item_count s_ex <= item_count s_all)%nat /\
    st_quantity s_ex <= st_quantity s_all.
Proof.
  intros Hex Hall Hq.
  destruct (perform_stocktake_run env target user note0 commit kw_ex)
    as (s1 & logs1 & Hrun1 & _ & Hc1 & Hq1 & _).
  destruct (perform_stocktake_run env target user note0 commit kw_all)
    as (s2 & logs2 & Hrun2 & _ & Hc2 & Hq2 & _).
  rewrite selected_entries_included, Hex in Hc1, Hq1.
  rewrite selected_entries_included, Hall in Hc2, Hq2.
  exists s1. eexists. exists s2. eexists.
  split; [exact Hrun1|]. split; [exact Hrun2|].
  rewrite included_entries_excluding in Hc1, Hq1. split.
  - rewrite Hc1, Hc2. apply filter_length_le_list.
  - rewrite Hq1, Hq2. apply sum_Q_filter_le.
    apply List.Forall_forall. intros e He.
    apply List.filter_In in He as [He _].
    rewrite List.Forall_forall in Hq. apply Hq. exact He.
Qed.

Lemma excluding_external_only_removes_witness :
  exists s_ex tr_ex s_all tr_all,
    perform_stocktake Demo.env_both Demo.widget VNone "" false
                      {[ "exclude_external" := VBool true ]} = (Ok s_ex, tr_ex) /\
    perform_stocktake Demo.env_both Demo.widget VNone "" false ∅ = (Ok s_all, tr_all) /\
    (item_count s_ex <= item_count s_all)%nat /\
    st_quantity s_ex <= st_quantity s_all.
Proof.
  apply (excluding_external_only_removes Demo.env_both Demo.widget VNone "" false
           {[ "exclude_external" := VBool true ]} ∅).
  - vm_compute. reflexivity.
  - vm_compute. reflexivity.
  - repeat constructor; discriminate.
Defined.





(** X19: when the purchase price of an entry has no exchange rate, a
    warning naming the price is logged first and the entry is then valued
    through the part pricing, exactly as an entry without purchase price. *)
Theorem purchase_price_without_rate_falls_back env pricing base e s :
  truthy (purchase_price e) = true ->
  convert_money env (purchase_price e) base = Raise MissingRate ->
  currency (total_cost_min s) = base ->
  currency (total_cost_max s) = base ->
  exists s' logs,
    entry_body env pricing base e s = (s', Ok tt) /\
    trace s' =
      trace s ++ Log (warning_missing_rate_purchase (purchase_price e) base)
              :: map Log logs /\
    amount (total_cost_min s') ==
      amount (total_cost_min s) + fst (fallback_contribution env pricing base (quantity e)) /\
    amount (total_cost_max s') ==
      amount (total_cost_max s) + snd (fallback_contribution env pricing base (quantity e)).
Proof.
  intros Hpp Hc Hmin Hmax.
  unfold entry_body, purchase_price_block.
  unfold bind at 1 2 3. unfold add_total_quantity, set_has_pricing. simpl.
  rewrite Hpp. run_stmt. rewrite Hc. simpl.
  destruct (fallback_block_run env pricing base e
              (mkLocals (total_quantity s + quantity e) (total_cost_min s)
                 (total_cost_max s) false
                 (trace s ++ [Log (warning_missing_rate_purchase (purchase_price e) base)])))
    as (s' & Hrun & _ & _ & _ & H3 & H4 & logs & Hl); try assumption; try reflexivity.
  exists s', logs. split; [exact Hrun|]. simpl in *.
  split; [rewrite Hl, <- app_assoc; reflexivity|]. split; assumption.
Qed.

Lemma purchase_price_without_rate_falls_back_witness :
  exists s' logs,
    entry_body Demo.env0 (mkPricing true (Some (Demo.usd 2)) None) "USD"
               Demo.foreign_entry Demo.locals0 = (s', Ok tt) /\
    trace s' =
      [Log (warning_missing_rate_purchase (Some (Demo.eur 3)) "USD")] ++ map Log logs /\
    amount (total_cost_min s') == 8 /\ amount (total_cost_max s') == 8.
Proof.
  destruct (purchase_price_without_rate_falls_back Demo.env0
              (mkPricing true (Some (Demo.usd 2)) None) "USD"
              Demo.foreign_entry Demo.locals0)
    as (s' & logs & Hrun & Htr & Hmin & Hmax); try reflexivity.
  exists s', logs. split; [exact Hrun|]. split; [exact Htr|].
  split; [rewrite Hmin|rewrite Hmax]; reflexivity.
Defined.

(** ** Further properties of [generate_stocktake_report] *)

(** X10: when no part, category or location is given (or each is given as
    [None]), the report runs over all the parts. *)
Theorem no_filter_keeps_all_parts env (kwargs : gmap string Value) :
  value_truthy (kwargs_get kwargs "part" VNone) = false ->
  value_truthy (kwargs_get kwargs "category" VNone) = false ->
  value_truthy (kwargs_get kwargs "location" VNone) = false ->
  filtered_parts env kwargs = Ok (Part_objects env).
Proof.
  intros Hp Hc Hl.
  unfold filtered_parts, filter_by_part, filter_by_category, filter_by_location.
  rewrite Hp, Hc, Hl. reflexivity.
Qed.

Lemma no_filter_keeps_all_parts_witness :
  filtered_parts Demo.env_two Demo.kwargs_update_only = Ok [Demo.widget; Demo.gadget].
Proof.
  apply (no_filter_keeps_all_parts Demo.env_two Demo.kwargs_update_only);
    vm_compute; reflexivity.
Defined.

(** X11: the three filters combine by intersection: with a part, a category
    and a location given, a part is kept exactly when its key is that of a
    descendant of the given part, its category is a descendant of the given
    category, and it owns a stock item within the given location. *)
Theorem filters_intersect env (kwargs : gmap string Value) x c l :
  kwargs !! "part" = Some (VPart x) ->
  kwargs !! "category" = Some (VCategory c) ->
  kwargs !! "location" = Some (VLocation l) ->
  exists parts,
    filtered_parts env kwargs = Ok parts /\
    forall p,
      In p parts <->
      In p (Part_objects env) /\
      In (part_pk p) (map part_pk (part_descendants env x)) /\
      (exists pc, category p = Some pc /\
                  In (cat_pk pc) (map cat_pk (category_descendants env c))) /\
      (exists it,
          In it (StockItem_objects env) /\
          item_part it = part_pk p /\
          (exists il, location it = Some il /\
                      In (loc_pk il) (map loc_pk (location_descendants env l))) /\
          (value_truthy (report_exclude_external env kwargs) = true ->
           location_external it = false)).
Proof.
  intros Hp Hc Hl.
  unfold filtered_parts, filter_by_part, filter_by_category, filter_by_location, kwargs_get.
  rewrite Hp, Hc, Hl. simpl.
  eexists. split; [reflexivity|].
  intros p. rewrite !List.filter_In, !mem_nat_In, nodup_In.
  split.
  - intros [[[Hin Hpk] Hcat] Hloc].
    apply in_map_iff in Hloc as (it & Hpart & Hit).
    split; [exact Hin|]. split; [exact Hpk|]. split.
    + destruct (category p) as [pc|]; [|discriminate].
      exists pc. split; [reflexivity|apply mem_nat_In; exact Hcat].
    + exists it. apply items_within_In in Hit. tauto.
  - intros (Hin & Hpk & (pc & Hpc & Hcat) & (it & Hit & Hpart & Hloc & Hext)).
    split; [split; [split; [exact Hin|exact Hpk]|]|].
    + rewrite Hpc. apply mem_nat_In. exact Hcat.
    + apply in_map_iff. exists it. split; [exact Hpart|].
      apply items_within_In. tauto.
Qed.

Lemma filters_intersect_witness :
  exists parts,
    filtered_parts Demo.env_two
      {[ "part" := VPart Demo.widget;
         "category" := VCategory (mkCategory 1 "Hardware");
         "location" := VLocation Demo.shelf ]} = Ok parts /\
    In Demo.widget parts /\ ~ In Demo.gadget parts.
Proof.
  destruct (filters_intersect Demo.env_two
              {[ "part" := VPart Demo.widget;
                 "category" := VCategory (mkCategory 1 "Hardware");
                 "location" := VLocation Demo.shelf ]}
              Demo.widget (mkCategory 1 "Hardware") Demo.shelf)
    as (parts & Hrun & Hin);
    [vm_compute; reflexivity|vm_compute; reflexivity|vm_compute; reflexivity|].
  exists parts. split; [exact Hrun|]. split.
  - apply Hin. split; [left; reflexivity|]. split; [left; reflexivity|]. split.
    + eexists. split; [reflexivity|]. left. reflexivity.
    + eexists. split; [left; reflexivity|]. split; [reflexivity|].
      split; [|intros _; reflexivity].
      eexists. split; [reflexivity|]. left. reflexivity.
  - intros Hg. apply Hin in Hg as (_ & [Hpk|[]] & _). discriminate Hpk.
Defined.

Lemma filter_by_part_filters env (kwargs : gmap string Value) parts ps :
  filter_by_part env kwargs parts = Ok ps -> exists f, ps = List.filter f parts.
Proof.
  unfold filter_by_part.
  destruct (value_truthy (kwargs_get kwargs "part" VNone)).
  - destruct (kwargs_get kwargs "part" VNone); try discriminate;
      intros [= <-]; eexists; reflexivity.
  - intros [= <-]. exists (fun _ => true). induction parts; simpl; congruence.
Qed.

Lemma filter_by_category_filters env (kwargs : gmap string Value) parts ps :
  filter_by_category env kwargs parts = Ok ps -> exists f, ps = List.filter f parts.
Proof.
  unfold filter_by_category.
  destruct (value_truthy (kwargs_get kwargs "category" VNone)).
  - destruct (kwargs_get kwargs "category" VNone); try discriminate;
      intros [= <-]; eexists; reflexivity.
  - intros [= <-]. exists (fun _ => true). induction parts; simpl; congruence.
Qed.

Lemma filter_by_location_filters env (kwargs : gmap string Value) excl parts ps :
  filter_by_location env kwargs excl parts = Ok ps -> exists f, ps = List.filter f parts.
Proof.
  unfold filter_by_location.
  destruct (value_truthy (kwargs_get kwargs "location" VNone)).
  - destruct (kwargs_get kwargs "location" VNone); try discriminate;
      intros [= <-]; eexists; reflexivity.
  - intros [= <-]. exists (fun _ => true). induction parts; simpl; congruence.
Qed.

(** X12: the filters only take parts away: whatever the options, the
    parts of the report are parts of the catalog, they are no more
    numerous, and a part is not listed twice if the catalog does not list
    it twice. *)
Theorem filters_only_remove env (kwargs : gmap string Value) parts :
  filtered_parts env kwargs = Ok parts ->
  (forall p, In p parts -> In p (Part_objects env)) /\
  (length parts <= length (Part_objects env))%nat /\
  (List.NoDup (Part_objects env) -> List.NoDup parts).
Proof.
  unfold filtered_parts.
  destruct (filter_by_part env kwargs (Part_objects env)) as [ps1|] eqn:H1; [|discriminate].
  destruct (filter_by_category env kwargs ps1) as [ps2|] eqn:H2; [|discriminate].
  intros H3.
  apply filter_by_part_filters in H1 as [f1 ->].
  apply filter_by_category_filters in H2 as [f2 ->].
  apply filter_by_location_filters in H3 as [f3 ->].
  split; [|split].
  - intros p Hin.
    apply List.filter_In in Hin as [Hin _].
    apply List.filter_In in Hin as [Hin _].
    apply List.filter_In in Hin as [Hin _]. exact Hin.
  - pose proof (filter_length_le_list f3 (List.filter f2 (List.filter f1 (Part_objects env)))).
    pose proof (filter_length_le_list f2 (List.filter f1 (Part_objects env))).
    pose proof (filter_length_le_list f1 (Part_objects env)). lia.
  - intros Hnd. repeat apply NoDup_filter_list. exact Hnd.
Qed.

Lemma filters_only_remove_witness :
  (forall p, In p [Demo.widget] -> In p (Part_objects Demo.env_two)) /\
  (length [Demo.widget] <= length (Part_objects Demo.env_two))%nat /\
  (List.NoDup (Part_objects Demo.env_two) -> List.NoDup [Demo.widget]).
Proof.
  apply (filters_only_remove Demo.env_two {[ "location" := VLocation Demo.shelf ]}).
  vm_compute. reflexivity.
Defined.



Lemma generate_stocktake_report_trace env (kwargs : gmap string Value) :
  exists pre post,
    snd (generate_stocktake_report env kwargs) = pre ++ post /\
    Forall (fun e => is_bookkeeping e = true) pre /\
    (post = [] \/
     exists v,
       post = finish_report env (kwargs_get kwargs "user" VNone)
                (kwargs_get kwargs "generate_report" (VBool true))
                (kwargs_get kwargs "update_parts" (VBool true)) v).
Proof.
  destruct (filtered_parts env kwargs) as [parts|x] eqn:Hparts.
  - destruct parts as [|p parts].
    + rewrite (empty_filtered_parts_run _ _ Hparts). simpl.
      exists [Log info_no_parts_selected], []. split; [reflexivity|].
      split; [repeat constructor|left; reflexivity].
    + destruct (generate_stocktake_report_run env kwargs (p :: parts) Hparts)
        as (pre & Hrun & Hpre); [discriminate|].
      rewrite Hrun. simpl. eexists pre, _. split; [reflexivity|].
      split; [exact Hpre|]. right. eexists. reflexivity.
  - unfold generate_stocktake_report. rewrite Hparts. simpl.
    exists [], []. split; [reflexivity|]. split; [constructor|left; reflexivity].
Qed.

(** X14: the report run never saves a snapshot on its own: the snapshots
    reach the store through the bulk insert only, so that without
    [update_parts] none is stored. *)
Theorem report_run_never_saves_single_snapshot env (kwargs : gmap string Value) :
  List.filter is_SaveStocktake (snd (generate_stocktake_report env kwargs)) = [] /\
  (value_truthy (kwargs_get kwargs "update_parts" (VBool true)) = false ->
   List.filter is_BulkCreate (snd (generate_stocktake_report env kwargs)) = []).
Proof.
  destruct (generate_stocktake_report_trace env kwargs)
    as (pre & post & -> & Hpre & Hpost).
  assert (Hs : List.filter is_SaveStocktake pre = []).
  { apply filter_nil_iff. intros e He. rewrite List.Forall_forall in Hpre.
    specialize (Hpre e He). destruct e; try discriminate; reflexivity. }
  assert (Hb : List.filter is_BulkCreate pre = []).
  { apply filter_nil_iff. intros e He. rewrite List.Forall_forall in Hpre.
    specialize (Hpre e He). destruct e; try discriminate; reflexivity. }
  rewrite !List.filter_app, Hs, Hb. simpl.
  destruct Hpost as [->|[v ->]]; [split; reflexivity|].
  unfold finish_report. split.
  - destruct (value_truthy (kwargs_get kwargs "generate_report" (VBool true))),
      (value_truthy (kwargs_get kwargs "user" VNone)),
      (value_truthy (kwargs_get kwargs "update_parts" (VBool true))); reflexivity.
  - intros ->.
    destruct (value_truthy (kwargs_get kwargs "generate_report" (VBool true))),
      (value_truthy (kwargs_get kwargs "user" VNone)); reflexivity.
Qed.

(** X15: a notification is sent only for a report record created in the
    same run, under the category [generate_stocktake_report], and to the
    requesting user alone, who is the user recorded on the report; a run
    without user notifies nobody. *)
Theorem notification_follows_report env (kwargs : gmap string Value) r c targets :
  In (TriggerNotification r c targets) (snd (generate_stocktake_report env kwargs)) ->
  let user := kwargs_get kwargs "user" VNone in
  In (CreateReport r) (snd (generate_stocktake_report env kwargs)) /\
  c = "generate_stocktake_report" /\
  targets = [user] /\
  report_user r = user /\
  value_truthy user = true.
Proof.
  intros Hin user.
  destruct (generate_stocktake_report_trace env kwargs)
    as (pre & post & Htr & Hpre & Hpost).
  rewrite Htr in *. fold user in Hpost.
  apply in_app_or in Hin as [Hin|Hin].
  { exfalso. exact (bookkeeping_not_TriggerNotification _ _ _ _ Hpre Hin). }
  destruct Hpost as [->|[v ->]]; [destruct Hin|].
  unfold finish_report in *.
  destruct (value_truthy (kwargs_get kwargs "generate_report" (VBool true))).
  - destruct (value_truthy user) eqn:Hu.
    + destruct Hin as [Hin|[Hin|Hin]]; [discriminate Hin| |].
      * injection Hin as <- <- <-.
        split; [apply in_or_app; right; left; reflexivity|].
        repeat split; reflexivity.
      * exfalso.
        destruct (value_truthy (kwargs_get kwargs "update_parts" (VBool true)));
          simpl in Hin; intuition discriminate.
    + destruct Hin as [Hin|Hin]; [discriminate Hin|]. exfalso.
      destruct (value_truthy (kwargs_get kwargs "update_parts" (VBool true)));
        simpl in Hin; intuition discriminate.
  - exfalso. simpl in Hin.
    destruct (value_truthy (kwargs_get kwargs "update_parts" (VBool true)));
      simpl in Hin; intuition discriminate.
Qed.

Lemma notification_follows_report_witness :
  exists r,
    In (TriggerNotification r "generate_stocktake_report" [VUser Demo.alice])
       (snd (generate_stocktake_report Demo.env0 Demo.kwargs_alice)) /\
    In (CreateReport r) (snd (generate_stocktake_report Demo.env0 Demo.kwargs_alice)) /\
    report_user r = VUser Demo.alice.
Proof.
  eexists. split.
  - vm_compute. right. right. left. reflexivity.
  - match goal with
    | |- In (CreateReport ?r) _ /\ _ =>
        destruct (notification_follows_report Demo.env0 Demo.kwargs_alice r
                    "generate_stocktake_report" [VUser Demo.alice])
          as (Hrep & _ & _ & Hu & _);
          [vm_compute; right; right; left; reflexivity|]
    end.
    split; [exact Hrep|reflexivity].
Defined.

Lemma counted_snapshots_In env user excl parts p s :
  In (p, s) (counted_snapshots env user excl parts) ->
  In p parts /\ part_snapshot env user excl p = Ok s /\ ~ st_quantity s == 0.
Proof.
  intros Hin.
  pose proof (counted_snapshots_nonzero env user excl parts) as Hnz.
  rewrite List.Forall_forall in Hnz. specialize (Hnz _ Hin). simpl in Hnz.
  unfold counted_snapshots in Hin. apply List.filter_In in Hin as [Hin _].
  unfold part_snapshots in Hin. apply in_flat_map in Hin as (q & Hq & Hin).
  destruct (part_snapshot env user excl q) as [s0|] eqn:Hs; [|destruct Hin].
  destruct Hin as [[= <- <-]|[]]. repeat split; assumption.
Qed.

(** X16: every snapshot handed to the bulk insert belongs to one of the
    filtered parts, carries the requesting user and an empty note, and
    counts all the included stock entries of its part: a location filter
    selects the parts of the report, it does not restrict the stock counted
    for them. *)
Theorem stored_snapshots_cover_whole_part
    env (kwargs : gmap string Value) parts objs n s :
  filtered_parts env kwargs = Ok parts ->
  In (BulkCreate objs n) (snd (generate_stocktake_report env kwargs)) ->
  In s objs ->
  let entries :=
    included_entries env (st_part s)
                     (value_truthy (report_exclude_external env kwargs)) in
  In (st_part s) parts /\
  st_user s = kwargs_get kwargs "user" VNone /\
  note s = "" /\
  item_count s = length entries /\
  st_quantity s == sum_Q (map quantity entries) /\
  ~ st_quantity s == 0.
Proof.
  intros Hparts Hbulk Hs entries.
  destruct (generate_stocktake_report_stores env kwargs parts Hparts) as [Hb _].
  destruct (Hb objs n Hbulk) as [-> _].
  apply in_map_iff in Hs as ([p s0] & Heq & Hin). simpl in Heq. subst s0.
  apply counted_snapshots_In in Hin as (Hp & Hsnap & Hnz).
  unfold part_snapshot in Hsnap.
  destruct (perform_stocktake_run env p (kwargs_get kwargs "user" VNone) "" false
              {[ "exclude_external" := report_exclude_external env kwargs ]})
    as (s1 & logs & Hrun & Hpart & Hc & Hq & _ & _ & _ & _ & Hnote & Huser).
  rewrite Hrun in Hsnap. simpl in Hsnap. injection Hsnap as <-.
  rewrite selected_entries_included in Hc, Hq.
  unfold kwargs_get in Hc at 1. unfold kwargs_get in Hq at 1.
  rewrite lookup_singleton_eq in Hc, Hq.
  subst entries. rewrite Hpart.
  repeat split; assumption.
Qed.

Lemma stored_snapshots_cover_whole_part_witness :
  exists objs s,
    In (BulkCreate objs 500)
       (snd (generate_stocktake_report Demo.env_both
               {[ "location" := VLocation Demo.shelf ]})) /\
    In s objs /\ item_count s = 2%nat /\ st_quantity s == 8.
Proof.
  eexists. eexists. split; [vm_compute; right; right; left; reflexivity|].
  split; [left; reflexivity|].
  match goal with
  | |- item_count ?s = _ /\ _ =>
      destruct (stored_snapshots_cover_whole_part Demo.env_both
                  {[ "location" := VLocation Demo.shelf ]} [Demo.widget] [s] 500 s)
        as (_ & _ & _ & Hc & Hq & _);
        [vm_compute; reflexivity
        |vm_compute; right; right; left; reflexivity
        |left; reflexivity|]
  end.
  split; [rewrite Hc|rewrite Hq]; vm_compute; reflexivity.
Defined.

Lemma counted_snapshots_length env user excl parts :
  (length (counted_snapshots env user excl parts) <= length parts)%nat.
Proof.
  unfold counted_snapshots.
  etransitivity; [apply filter_length_le_list|].
  unfold part_snapshots. induction parts as [|p parts IH]; simpl; [lia|].
  rewrite length_app.
  destruct (part_snapshot env user excl p); simpl; lia.
Qed.

(** X17: the part count recorded on the report is the number of snapshots
    handed to the bulk insert of the same run, and it does not exceed the
    number of filtered parts. *)
Theorem part_count_matches_bulk_insert env (kwargs : gmap string Value) parts r objs n :
  filtered_parts env kwargs = Ok parts ->
  In (CreateReport r) (snd (generate_stocktake_report env kwargs)) ->
  In (BulkCreate objs n) (snd (generate_stocktake_report env kwargs)) ->
  part_count r = length objs /\ (part_count r <= length parts)%nat.
Proof.
  intros Hparts Hrep Hbulk.
  destruct (generate_stocktake_report_stores env kwargs parts Hparts) as [Hb Hr].
  destruct (Hb objs n Hbulk) as [-> _]. rewrite (Hr r Hrep). simpl.
  rewrite List.length_map. split; [reflexivity|apply counted_snapshots_length].
Qed.

Lemma part_count_matches_bulk_insert_witness :
  exists r objs,
    In (CreateReport r) (snd (generate_stocktake_report Demo.env_two ∅)) /\
    In (BulkCreate objs 500) (snd (generate_stocktake_report Demo.env_two ∅)) /\
    part_count r = length objs /\ (part_count r <= 2)%nat.
Proof.
  eexists. eexists.
  split; [vm_compute; right; left; reflexivity|].
  split; [vm_compute; right; right; left; reflexivity|].
  match goal with
  | |- part_count ?r = length ?objs /\ _ =>
      apply (part_count_matches_bulk_insert Demo.env_two ∅
               [Demo.widget; Demo.gadget] r objs 500);
        [vm_compute; reflexivity
        |vm_compute; right; left; reflexivity
        |vm_compute; right; right; left; reflexivity]
  end.
Defined.

(** X18: the keyword [exclude_external] has no effect on a report run: the
    result and the effects are the same with and without it, whatever its
    value. *)
Theorem exclude_external_keyword_has_no_effect env (kwargs : gmap string Value) v :
  generate_stocktake_report env (<[ "exclude_external" := v ]> kwargs) =
  generate_stocktake_report env kwargs.
Proof.
  unfold generate_stocktake_report, filtered_parts, filter_by_part,
    filter_by_category, filter_by_location, report_exclude_external, kwargs_get.
  rewrite !lookup_insert_ne by discriminate. reflexivity.
Qed.

(** X20: on a non-empty part set a run creates one report record when
    [generate_report] holds and none otherwise, sends one notification when
    in addition a user is given and none otherwise, and makes one bulk
    insert when [update_parts] holds and none otherwise. *)
Theorem report_run_effect_counts env (kwargs : gmap string Value) parts :
  filtered_parts env kwargs = Ok parts ->
  parts <> [] ->
  let tr := snd (generate_stocktake_report env kwargs) in
  let g := value_truthy (kwargs_get kwargs "generate_report" (VBool true)) in
  let u := value_truthy (kwargs_get kwargs "update_parts" (VBool true)) in
  let w := value_truthy (kwargs_get kwargs "user" VNone) in
  length (List.filter is_CreateReport tr) = (if g then 1 else 0)%nat /\
  length (List.filter is_TriggerNotification tr) = (if g && w then 1 else 0)%nat /\
  length (List.filter is_BulkCreate tr) = (if u then 1 else 0)%nat.
Proof.
  intros Hparts Hne tr g u w. subst tr.
  destruct (generate_stocktake_report_run env kwargs parts Hparts Hne)
    as (pre & Hrun & Hpre).
  rewrite Hrun. simpl.
  assert (Hnil : forall f, (forall e, is_bookkeeping e = true -> f e = false) ->
                           List.filter f pre = []).
  { intros f Hf. apply filter_nil_iff. intros e He.
    rewrite List.Forall_forall in Hpre. apply Hf, Hpre, He. }
  rewrite !List.filter_app.
  rewrite (Hnil is_CreateReport) by (intros []; simpl; congruence).
  rewrite (Hnil is_TriggerNotification) by (intros []; simpl; congruence).
  rewrite (Hnil is_BulkCreate) by (intros []; simpl; congruence).
  unfold finish_report. fold g u w.
  destruct g, u, w; simpl; repeat split; reflexivity.
Qed.

Lemma report_run_effect_counts_witness :
  length (List.filter is_CreateReport
            (snd (generate_stocktake_report Demo.env_two Demo.kwargs_update_only)))
    = 0%nat /\
  length (List.filter is_BulkCreate
            (snd (generate_stocktake_report Demo.env_two Demo.kwargs_update_only)))
    = 1%nat.
Proof.
  destruct (report_run_effect_counts Demo.env_two Demo.kwargs_update_only
              [Demo.widget; Demo.gadget]) as (H1 & _ & H3);
    [vm_compute; reflexivity|discriminate|].
  split; [rewrite H1|rewrite H3]; vm_compute; reflexivity.
Defined.

Lemma counted_snapshots_part env user excl parts :
  Forall (fun ps => st_part (snd ps) = fst ps) (counted_snapshots env user excl parts).
Proof.
  apply List.Forall_forall. intros [p s] Hin.
  apply counted_snapshots_In in Hin as (_ & Hsnap & _).
  unfold part_snapshot in Hsnap.
  destruct (perform_stocktake_run env p user "" false {[ "exclude_external" := excl ]})
    as (s1 & logs & Hrun & Hpart & _).
  rewrite Hrun in Hsnap. simpl in Hsnap. injection Hsnap as <-. exact Hpart.
Qed.

(** X21: the exported dataset and the bulk insert of a run go together:
    the dataset has the nine report columns and one row per snapshot
    inserted, in the same order, each row giving the key of the snapshot's
    part, its item count and its quantity. *)
Theorem dataset_rows_match_snapshots env (kwargs : gmap string Value) parts r objs n :
  filtered_parts env kwargs = Ok parts ->
  In (CreateReport r) (snd (generate_stocktake_report env kwargs)) ->
  In (BulkCreate objs n) (snd (generate_stocktake_report env kwargs)) ->
  exists d,
    file_content (report r) = export_csv env d /\
    headers d = report_headers env (currency_code_default env) /\
    length (headers d) = 9%nat /\
    map row_part_id (rows d) = map (fun s => part_pk (st_part s)) objs /\
    map row_item_count (rows d) = map item_count objs /\
    map row_quantity (rows d) = map st_quantity objs.
Proof.
  intros Hparts Hrep Hbulk.
  destruct (generate_stocktake_report_stores env kwargs parts Hparts) as [Hb Hr].
  destruct (Hb objs n Hbulk) as [-> _]. rewrite (Hr r Hrep). simpl.
  eexists. split; [reflexivity|]. simpl.
  split; [reflexivity|]. split; [reflexivity|].
  rewrite !List.map_map. simpl. split; [|split; reflexivity].
  apply List.map_ext_in. intros [p s] Hin. simpl.
  pose proof (counted_snapshots_part env (kwargs_get kwargs "user" VNone)
                (report_exclude_external env kwargs) parts) as Hp.
  rewrite List.Forall_forall in Hp. specialize (Hp _ Hin). simpl in Hp.
  rewrite Hp. reflexivity.
Qed.

Lemma dataset_rows_match_snapshots_witness :
  exists r objs d,
    In (CreateReport r) (snd (generate_stocktake_report Demo.env_two ∅)) /\
    In (BulkCreate objs 500) (snd (generate_stocktake_report Demo.env_two ∅)) /\
    file_content (report r) = export_csv Demo.env_two d /\
    map row_part_id (rows d) = map (fun s => part_pk (st_part s)) objs.
Proof.
  eexists. eexists.
  match goal with
  | |- exists d, In (CreateReport ?r) _ /\ In (BulkCreate ?objs _) _ /\ _ =>
      destruct (dataset_rows_match_snapshots Demo.env_two ∅
                  [Demo.widget; Demo.gadget] r objs 500)
        as (d & Hfile & _ & _ & Hrows & _);
        [vm_compute; reflexivity
        |vm_compute; right; left; reflexivity
        |vm_compute; right; right; left; reflexivity|]
  end.
  exists d.
  split; [vm_compute; right; left; reflexivity|].
  split; [vm_compute; right; right; left; reflexivity|].
  split; [exact Hfile|exact Hrows].
Defined.
